(** * PhotoApp: a shallow embedding of [main.py]

    The program is a command loop over seven handlers.  Every handler is a
    short sequence of calls into the console, the local file system, the
    object store (module [awsutil]) and the relational store (module
    [datatier]).  The handlers are embedded as computations of a state and
    error monad over an explicit [world]; Python values are embedded as they
    appear in the code: a row is a tuple ([list val]), the data tier's
    tri-state answer is [None], [()] or a tuple ([option (list val)]). *)

From Stdlib Require Import ZArith String Ascii List Lia Sorted Permutation.
From stdpp Require Import base gmap strings list pretty.

Local Open Scope string_scope.
Local Open Scope list_scope.
Local Open Scope Z_scope.

(** ** Python builtins used by the program *)

Module Py.

(** Python values that flow through the handlers. *)
Inductive val :=
| VInt (n : Z)
| VStr (s : string).

(** Exceptions the program can die of; none is caught anywhere in [main.py]. *)
Inductive exn :=
| ValueError
| EOFError
| TypeError
| IndexError
| FileNotFoundError
| ClientError.

(** [str(v)], as [print] applies it to each argument. *)
Definition str (v : val) : string :=
  match v with
  | VInt n => pretty n
  | VStr s => s
  end.

(** The line written by [print(a, b, ...)]: the arguments' [str]s separated
    by single spaces. *)
Definition print_line (args : list val) : string :=
  String.concat " " (map str args).

(** *** [int(text)]

    Optional surrounding white space, an optional sign, then decimal digits
    in which single underscores may separate digits. *)

Definition is_space (a : ascii) : bool :=
  let n := N_of_ascii a in
  ((9 <=? n) && (n <=? 13) || (28 <=? n) && (n <=? 32))%N.

Definition digit_of (a : ascii) : option Z :=
  let n := N_of_ascii a in
  if ((48 <=? n) && (n <=? 57))%N then Some (Z.of_N n - 48) else None.

Fixpoint lstrip (l : list ascii) : list ascii :=
  match l with
  | a :: l' => if is_space a then lstrip l' else l
  | [] => []
  end.

Definition strip (l : list ascii) : list ascii :=
  rev (lstrip (rev (lstrip l))).

(** [digits acc after_digit l]: the value of the digit string [l] continuing
    the accumulated value [acc]; [after_digit] says whether the previous
    character was a digit, which is where an underscore or the end of the
    text is allowed. *)
Fixpoint digits (acc : Z) (after_digit : bool) (l : list ascii) : option Z :=
  match l with
  | [] => if after_digit then Some acc else None
  | a :: l' =>
      match digit_of a with
      | Some d => digits (10 * acc + d) true l'
      | None =>
          if (Ascii.eqb a "_" && after_digit)%bool
          then digits acc false l'
          else None
      end
  end.

Definition int_of_chars (l : list ascii) : option Z :=
  match strip l with
  | "-"%char :: l' => Z.opp <$> digits 0 false l'
  | "+"%char :: l' => digits 0 false l'
  | l' => digits 0 false l'
  end.

Definition int (s : string) : option Z :=
  int_of_chars (list_ascii_of_string s).

(** *** [uuid.uuid4()] and [str] of a UUID

    A UUID is its 128-bit integer.  [uuid4] takes sixteen random bytes and
    stamps the RFC 4122 variant and the version number 4 on them. *)

Definition uuid4_of (random : Z) : Z :=
  let i := random mod 2 ^ 128 in
  let i := Z.land i (Z.lnot (Z.shiftl 0xc000 48)) in
  let i := Z.lor i (Z.shiftl 0x8000 48) in
  let i := Z.land i (Z.lnot (Z.shiftl 0xf000 64)) in
  Z.lor i (Z.shiftl 4 76).

Definition hex_digit (n : Z) : ascii :=
  nth (Z.to_nat n) (list_ascii_of_string "0123456789abcdef") "0"%char.

(** ['%032x' % i]: thirty-two hexadecimal digits, most significant first. *)
Definition hex32 (i : Z) : list ascii :=
  map (fun k => hex_digit (Z.land (Z.shiftr i (4 * Z.of_nat k)) 15))
      (rev (seq 0 32)).

(** [str(u)] for a UUID [u]: the digits grouped 8-4-4-4-12. *)
Definition str_uuid (i : Z) : string :=
  let h := hex32 i in
  string_of_list_ascii
    (firstn 8 h ++ "-"%char :: firstn 4 (skipn 8 h) ++
     "-"%char :: firstn 4 (skipn 12 h) ++
     "-"%char :: firstn 4 (skipn 16 h) ++
     "-"%char :: skipn 20 h).

End Py.

Import Py.

(** ** The world the program runs in *)

(** The two tables of the relational schema, keyed by their auto-assigned
    integer identifier:
    [users(userid, email, lastname, firstname, bucketfolder)] and
    [assets(assetid, userid, assetname, bucketkey)]. *)
Record user := mkUser {
  email : string;
  lastname : string;
  firstname : string;
  bucketfolder : string }.

Record asset := mkAsset {
  userid : Z;
  assetname : string;
  bucketkey : string }.

Record database := mkDb {
  tbl_users : gmap Z user;
  tbl_assets : gmap Z asset;
  users_auto : Z;            (* next auto-assigned userid *)
  assets_auto : Z;           (* next auto-assigned assetid *)
  last_insert_id : Z;        (* what LAST_INSERT_ID() answers *)
  to_int : string -> option Z (* the server's reading of a text parameter
                                 that meets an integer column *) }.

(** The SQL statements [main.py] issues. *)
Inductive sql :=
| SQL_counts          (* select the row counts of users and of assets, as one row *)
| SQL_users_desc      (* select * from users order by userid desc *)
| SQL_assets_desc     (* select * from assets order by assetid desc *)
| SQL_asset_by_id     (* select bucketkey, assetname from assets where assetid = %s *)
| SQL_user_by_id      (* select * from users where userid = %s *)
| SQL_insert_asset    (* insert into assets(userid, assetname, bucketkey) values(%s, %s, %s) *)
| SQL_insert_user     (* insert into users(email, lastname, firstname, bucketfolder) values(%s, %s, %s, %s) *)
| SQL_last_insert_id. (* select LAST_INSERT_ID() *)

(** Calls that leave the process, in the order they are made. *)
Inductive call :=
| DbOneRow (q : sql) (params : list val)
| DbAllRows (q : sql) (params : list val)
| DbAction (q : sql) (params : list val)
| S3Objects
| S3Upload (local_path key : string)
| S3Download (key : string)
| OsRename (src dst : string)
| Display (path : string).

Definition is_storage_call (c : call) : bool :=
  match c with
  | S3Objects | S3Upload _ _ | S3Download _ => true
  | _ => false
  end.

Record world := mkWorld {
  stdin : list string;          (* lines not read yet *)
  stdout : list string;         (* lines printed so far *)
  fs : gmap string string;      (* local files: path to contents *)
  bucket : gmap string string;  (* the bucket: key to contents *)
  db : database;
  entropy : nat -> Z;           (* the system's random source *)
  drawn : nat;                  (* how many random draws were made *)
  db_fault : nat -> bool;       (* whether the external call made as the
                                   n-th one hits an execution failure *)
  calls : list call }.

Definition set_stdin (l : list string) (w : world) : world :=
  mkWorld l (stdout w) (fs w) (bucket w) (db w) (entropy w) (drawn w) (db_fault w) (calls w).
Definition set_stdout (l : list string) (w : world) : world :=
  mkWorld (stdin w) l (fs w) (bucket w) (db w) (entropy w) (drawn w) (db_fault w) (calls w).
Definition set_fs (f : gmap string string) (w : world) : world :=
  mkWorld (stdin w) (stdout w) f (bucket w) (db w) (entropy w) (drawn w) (db_fault w) (calls w).
Definition set_bucket (b : gmap string string) (w : world) : world :=
  mkWorld (stdin w) (stdout w) (fs w) b (db w) (entropy w) (drawn w) (db_fault w) (calls w).
Definition set_db (d : database) (w : world) : world :=
  mkWorld (stdin w) (stdout w) (fs w) (bucket w) d (entropy w) (drawn w) (db_fault w) (calls w).
Definition set_drawn (n : nat) (w : world) : world :=
  mkWorld (stdin w) (stdout w) (fs w) (bucket w) (db w) (entropy w) n (db_fault w) (calls w).
Definition log_call (c : call) (w : world) : world :=
  mkWorld (stdin w) (stdout w) (fs w) (bucket w) (db w) (entropy w) (drawn w) (db_fault w)
          (calls w ++ [c]).

(** ** The monad of handlers: state, exceptions and [os.abort()] *)

Inductive outcome (A : Type) :=
| Ok (a : A)          (* the call returned *)
| Raised (e : exn)    (* an exception nobody catches: the process dies *)
| Aborted.            (* os.abort(): the process is killed on the spot *)
Arguments Ok {A} a.
Arguments Raised {A} e.
Arguments Aborted {A}.

Definition M (A : Type) : Type := world -> outcome A * world.

Definition ret {A} (a : A) : M A := fun w => (Ok a, w).

Definition bind {A B} (m : M A) (k : A -> M B) : M B :=
  fun w =>
    match m w with
    | (Ok a, w') => k a w'
    | (Raised e, w') => (Raised e, w')
    | (Aborted, w') => (Aborted, w')
    end.

Definition raise {A} (e : exn) : M A := fun w => (Raised e, w).

Declare Scope py_scope.
Delimit Scope py_scope with py.
Notation "x <- c1 ;; c2" := (bind c1 (fun x => c2))
  (at level 100, c1 at next level, right associativity) : py_scope.
Notation "c1 ;; c2" := (bind c1 (fun _ => c2))
  (at level 100, right associativity) : py_scope.
Local Open Scope py_scope.

(** [for x in l: body(x)] *)
Fixpoint for_each {A} (l : list A) (body : A -> M unit) : M unit :=
  match l with
  | [] => ret tt
  | x :: l' => body x ;; for_each l' body
  end.

(** *** Console, tuples, operating system *)

Definition print (args : list val) : M unit :=
  fun w => (Ok tt, set_stdout (stdout w ++ [print_line args]) w).

(** [input()]: the next line, [EOFError] at the end of the input. *)
Definition input : M string :=
  fun w =>
    match stdin w with
    | [] => (Raised EOFError, w)
    | l :: rest => (Ok l, set_stdin rest w)
    end.

(** [t[i]] on a tuple. *)
Definition index (t : list val) (i : nat) : M val :=
  match t !! i with
  | Some v => ret v
  | None => raise IndexError
  end.

(** [r[i]] on what the data tier returned: [None] is not subscriptable. *)
Definition subscript (r : option (list val)) (i : nat) : M val :=
  match r with
  | None => raise TypeError
  | Some t => index t i
  end.

(** A value used where the library wants text. *)
Definition as_str (v : val) : M string :=
  match v with
  | VStr s => ret s
  | VInt _ => raise TypeError
  end.

Definition os_abort {A} : M A := fun w => (Aborted, w).

Definition os_path_exists (p : string) : M bool :=
  fun w => (Ok (bool_decide (is_Some (fs w !! p))), w).

(** [os.rename(src, dst)] with the POSIX meaning: an existing file [dst] is
    replaced without notice. *)
Definition os_rename (src dst : string) : M unit :=
  fun w =>
    match fs w !! src with
    | None => (Raised FileNotFoundError, w)
    | Some c => (Ok tt, log_call (OsRename src dst) (set_fs (<[dst := c]> (delete src (fs w))) w))
    end.

(** [img.imread(p); plt.imshow(..); plt.show()]: only the fact that the
    image was put on screen is recorded. *)
Definition show_image (p : string) : M unit :=
  fun w => (Ok tt, log_call (Display p) w).

Definition uuid4 : M Z :=
  fun w => (Ok (uuid4_of (entropy w (drawn w))), set_drawn (S (drawn w)) w).

(** ** The data-access wrapper *)

Module datatier.

(** A table row as the tuple the driver hands back. *)
Definition user_row (k : Z) (u : user) : list val :=
  [VInt k; VStr (email u); VStr (lastname u); VStr (firstname u); VStr (bucketfolder u)].

Definition asset_row (k : Z) (a : asset) : list val :=
  [VInt k; VInt (userid a); VStr (assetname a); VStr (bucketkey a)].

(** [order by <id> desc] on the rows of a table. *)
Fixpoint insert_desc {A} (x : Z * A) (l : list (Z * A)) : list (Z * A) :=
  match l with
  | [] => [x]
  | y :: l' => if y.1 <=? x.1 then x :: l else y :: insert_desc x l'
  end.

Definition order_by_desc {A} (t : gmap Z A) : list (Z * A) :=
  foldr insert_desc [] (map_to_list t).

(** A parameter that meets an integer column. *)
Definition key_of (d : database) (v : val) : option Z :=
  match v with
  | VInt n => Some n
  | VStr s => to_int d s
  end.

(** The answer of the server to a single-row query; [None] when it cannot
    execute the statement. *)
Definition query_one (d : database) (q : sql) (params : list val) : option (list val) :=
  match q, params with
  | SQL_counts, [] =>
      Some [VInt (Z.of_nat (size (tbl_users d))); VInt (Z.of_nat (size (tbl_assets d)))]
  | SQL_asset_by_id, [p] =>
      match key_of d p with
      | Some k =>
          match tbl_assets d !! k with
          | Some a => Some [VStr (bucketkey a); VStr (assetname a)]
          | None => Some []
          end
      | None => Some []
      end
  | SQL_user_by_id, [p] =>
      match key_of d p with
      | Some k =>
          match tbl_users d !! k with
          | Some u => Some (user_row k u)
          | None => Some []
          end
      | None => Some []
      end
  | SQL_last_insert_id, [] => Some [VInt (last_insert_id d)]
  | _, _ => None
  end.

(** The answer to a multi-row query. *)
Definition query_all (d : database) (q : sql) (params : list val) : option (list (list val)) :=
  match q, params with
  | SQL_users_desc, [] => Some (map (fun r => user_row r.1 r.2) (order_by_desc (tbl_users d)))
  | SQL_assets_desc, [] => Some (map (fun r => asset_row r.1 r.2) (order_by_desc (tbl_assets d)))
  | _, _ => None
  end.

(** The effect of an insert statement: the new database and the number of
    rows affected; [None] when the statement fails. *)
Definition execute (d : database) (q : sql) (params : list val) : option (database * Z) :=
  match q, params with
  | SQL_insert_asset, [u; n; k] =>
      match key_of d u, tbl_assets d !! assets_auto d with
      | Some uid, None =>
          Some (mkDb (tbl_users d)
                     (<[assets_auto d := mkAsset uid (str n) (str k)]> (tbl_assets d))
                     (users_auto d) (assets_auto d + 1) (assets_auto d) (to_int d), 1)
      | _, _ => None
      end
  | SQL_insert_user, [e; l; f; b] =>
      match tbl_users d !! users_auto d with
      | None =>
          Some (mkDb (<[users_auto d := mkUser (str e) (str l) (str f) (str b)]> (tbl_users d))
                     (tbl_assets d)
                     (users_auto d + 1) (assets_auto d) (users_auto d) (to_int d), 1)
      | Some _ => None
      end
  | _, _ => None
  end.

(** Modelled from the spec: the module [datatier] is not among the sources.
    [retrieve_one_row] executes a query expected to return zero or one row;
    it returns an absent value on execution failure, an empty marker when
    no row matched, or the row otherwise. *)
Definition retrieve_one_row (q : sql) (params : list val) : M (option (list val)) :=
  fun w =>
    let w' := log_call (DbOneRow q params) w in
    if db_fault w (length (calls w)) then (Ok None, w')
    else (Ok (query_one (db w) q params), w').

(** Modelled from the spec: the module [datatier] is not among the sources.
    [retrieve_all_rows] has the same tri-state contract for multi-row
    queries. *)
Definition retrieve_all_rows (q : sql) (params : list val) : M (option (list (list val))) :=
  fun w =>
    let w' := log_call (DbAllRows q params) w in
    if db_fault w (length (calls w)) then (Ok None, w')
    else (Ok (query_all (db w) q params), w').

(** Modelled from the spec: the module [datatier] is not among the sources.
    [perform_action] executes an insert or update and returns the
    affected-row count, or an absent value on failure. *)
Definition perform_action (q : sql) (params : list val) : M (option Z) :=
  fun w =>
    let w' := log_call (DbAction q params) w in
    if db_fault w (length (calls w)) then (Ok None, w')
    else
      match execute (db w) q params with
      | Some (d, n) => (Ok (Some n), set_db d w')
      | None => (Ok None, w')
      end.

End datatier.

(** ** The object-storage wrapper *)

Module awsutil.

(** Modelled from the spec: the module [awsutil] is not among the sources.
    [upload_file] streams the local file's bytes to the given key inside
    the bucket, overwriting silently if the key already exists, and
    returns the key. *)
Definition upload_file (local_path key : string) : M string :=
  fun w =>
    let w' := log_call (S3Upload local_path key) w in
    match fs w !! local_path with
    | Some c => (Ok key, set_bucket (<[key := c]> (bucket w)) w')
    | None => (Raised FileNotFoundError, w')
    end.

(** Modelled from the spec: the module [awsutil] is not among the sources.
    [download_file] fetches the object to a locally-generated temporary
    filename, returned to the caller for the subsequent rename.  The spec
    fixes neither the form of that name (a fresh token is used here) nor
    what happens when the bucket has no such object (the call raises
    here). *)
Definition download_file (key : string) : M string :=
  fun w =>
    let w' := log_call (S3Download key) w in
    match bucket w !! key with
    | Some c =>
        let tmp := str_uuid (uuid4_of (entropy w (drawn w))) in
        (Ok tmp, set_drawn (S (drawn w)) (set_fs (<[tmp := c]> (fs w)) w'))
    | None => (Raised ClientError, w')
    end.

(** [len(list(bucket.objects.all()))] *)
Definition count_objects : M Z :=
  fun w => (Ok (Z.of_nat (size (bucket w))), log_call S3Objects w).

End awsutil.

(** ** The handlers of [main.py] *)

Import datatier awsutil.

Section session.

(** The bucket name and the database endpoint read from the configuration
    file when the session starts. *)
Variables (bucketname endpoint : string).

Definition prompt : M Z :=
  print [] ;;
  print [VStr ">> Enter a command:"] ;;
  print [VStr "   0 => end"] ;;
  print [VStr "   1 => stats"] ;;
  print [VStr "   2 => users"] ;;
  print [VStr "   3 => assets"] ;;
  print [VStr "   4 => download"] ;;
  print [VStr "   5 => download and display"] ;;
  print [VStr "   6 => upload"] ;;
  print [VStr "   7 => add user"] ;;
  line <- input ;;
  match Py.int line with
  | Some cmd => ret cmd
  | None => raise ValueError
  end.

Definition stats : M unit :=
  print [VStr "S3 bucket name:"; VStr bucketname] ;;
  n <- count_objects ;;
  print [VStr "S3 assets:"; VInt n] ;;
  print [VStr "RDS MySQL endpoint:"; VStr endpoint] ;;
  row <- retrieve_one_row SQL_counts [] ;;
  match row with
  | None => print [VStr "Database operation failed..."]
  | Some [] => print [VStr "Unexpected query failure..."]
  | Some r =>
      c0 <- index r 0 ;;
      print [VStr "# of users:"; c0] ;;
      c1 <- index r 1 ;;
      print [VStr "# of assets:"; c1]
  end.

Definition print_user (r : list val) : M unit :=
  c0 <- index r 0 ;;
  print [VStr "User id:"; c0] ;;
  c1 <- index r 1 ;;
  print [VStr "  Email:"; c1] ;;
  c2 <- index r 2 ;;
  c3 <- index r 3 ;;
  print [VStr "  Name:"; c2; VStr ","; c3] ;;
  c4 <- index r 4 ;;
  print [VStr "  Folder:"; c4].

Definition users : M unit :=
  rows <- retrieve_all_rows SQL_users_desc [] ;;
  match rows with
  | None => print [VStr "Database operation failed..."]
  | Some [] => print [VStr "Unexpected query failure..."]
  | Some rs => for_each rs print_user
  end.

Definition print_asset (r : list val) : M unit :=
  c0 <- index r 0 ;;
  print [VStr "Asset id:"; c0] ;;
  c1 <- index r 1 ;;
  print [VStr "  User id:"; c1] ;;
  c2 <- index r 2 ;;
  print [VStr "  Original name:"; c2] ;;
  c3 <- index r 3 ;;
  print [VStr "  Key name:"; c3].

Definition assets : M unit :=
  rows <- retrieve_all_rows SQL_assets_desc [] ;;
  match rows with
  | None => print [VStr "Database operation failed..."]
  | Some [] => print [VStr "Unexpected query failure..."]
  | Some rs => for_each rs print_asset
  end.

Definition download (display : bool) : M unit :=
  print [VStr "Enter asset id>"] ;;
  s <- input ;;
  row <- retrieve_one_row SQL_asset_by_id [VStr s] ;;
  match row with
  | None => print [VStr "Database operation failed..."]
  | Some [] => print [VStr "No such asset..."]
  | Some r =>
      c0 <- index r 0 ;;
      key <- as_str c0 ;;
      filename <- download_file key ;;
      c1 <- index r 1 ;;
      name <- as_str c1 ;;
      os_rename filename name ;;
      print [VStr "Downloaded from S3 and saved as '"; c1; VStr "'"] ;;
      if display then show_image name else ret tt
  end.

Definition upload : M unit :=
  print [VStr "Enter local file name>"] ;;
  s <- input ;;
  found <- os_path_exists s ;;
  (if found then ret tt
   else print [VStr "Local file '"; VStr s; VStr "' does not exist..."] ;; os_abort) ;;
  print [VStr "Enter user id>"] ;;
  id <- input ;;
  row1 <- retrieve_one_row SQL_user_by_id [VStr id] ;;
  r1 <- match row1 with
        | None | Some [] => print [VStr "No such user..."] ;; os_abort
        | Some r => ret r
        end ;;
  c4 <- index r1 4 ;;
  folder <- as_str c4 ;;
  u <- uuid4 ;;
  let filename := folder +:+ "/" +:+ str_uuid u +:+ ".jpg" in
  key <- upload_file s filename ;;
  print [VStr "Uploaded and stored in S3 as '"; VStr key; VStr "'"] ;;
  row2 <- perform_action SQL_insert_asset [VStr id; VStr s; VStr key] ;;
  row3 <- retrieve_one_row SQL_last_insert_id [] ;;
  c0 <- subscript row3 0 ;;
  print [VStr "Recorded in RDS under asset id"; c0].

Definition adduser : M unit :=
  print [VStr "Enter user's email>"] ;;
  email <- input ;;
  print [VStr "Enter user's last (family) name>"] ;;
  ln <- input ;;
  print [VStr "Enter user's first (given) name>"] ;;
  fn <- input ;;
  folder <- uuid4 ;;
  (* the driver sends the UUID parameter as its text *)
  row1 <- perform_action SQL_insert_user [VStr email; VStr ln; VStr fn; VStr (str_uuid folder)] ;;
  row2 <- retrieve_one_row SQL_last_insert_id [] ;;
  c0 <- subscript row2 0 ;;
  print [VStr "Recorded in RDS under asset id"; c0].

(** ** The main processing loop *)

(** The body of the [while] loop up to the next [prompt()]. *)
Definition dispatch (cmd : Z) : M unit :=
  if cmd =? 1 then stats
  else if cmd =? 2 then users
  else if cmd =? 3 then assets
  else if cmd =? 4 then download false
  else if cmd =? 5 then download true
  else if cmd =? 6 then upload
  else if cmd =? 7 then adduser
  else print [VStr "** Unknown command, try again..."].

(** [cmd = prompt(); while cmd != 0: ...; cmd = prompt()] followed by the
    two closing prints.  The loop has no bound of its own; [fuel] bounds the
    number of commands, and the result is [false] when it ran out. *)
Fixpoint while_loop (fuel : nat) (cmd : Z) : M bool :=
  if cmd =? 0 then ret true
  else
    match fuel with
    | O => ret false
    | S fuel' =>
        dispatch cmd ;;
        cmd' <- prompt ;;
        while_loop fuel' cmd'
    end.

Definition main (fuel : nat) : M bool :=
  cmd <- prompt ;;
  finished <- while_loop fuel cmd ;;
  if finished then print [] ;; print [VStr "** done **"] ;; ret true
  else ret false.

(** The same loop as the dispatcher's state machine. *)
Inductive exit_reason :=
| Done                  (* command 0 *)
| Killed                (* os.abort() *)
| Died (e : exn).       (* uncaught exception *)

Inductive state :=
| awaiting_command
| running_handler (cmd : Z)
| terminated (how : exit_reason).

Definition recognized (cmd : Z) : bool := (1 <=? cmd) && (cmd <=? 7).

(** Where the machine goes after a computation ended. *)
Definition after {A} (r : outcome A * world) (next : A -> world -> state * world)
  : state * world :=
  match r with
  | (Ok a, w) => next a w
  | (Raised e, w) => (terminated (Died e), w)
  | (Aborted, w) => (terminated Killed, w)
  end.

Definition step (s : state) (w : world) : state * world :=
  match s with
  | awaiting_command =>
      after (prompt w) (fun cmd w1 =>
        if cmd =? 0 then
          after ((print [] ;; print [VStr "** done **"]) w1)
                (fun _ w2 => (terminated Done, w2))
        else if recognized cmd then (running_handler cmd, w1)
        else after (dispatch cmd w1) (fun _ w2 => (awaiting_command, w2)))
  | running_handler cmd =>
      after (dispatch cmd w) (fun _ w1 => (awaiting_command, w1))
  | terminated how => (terminated how, w)
  end.

Fixpoint steps (n : nat) (s : state) (w : world) : state * world :=
  match n with
  | O => (s, w)
  | S n' => let (s', w') := step s w in steps n' s' w'
  end.

End session.


(** ** Vocabulary of the properties *)

(** [x] has no bit set at position 128 or above. *)
Definition fits128 (x : Z) : Prop := Z.land x (Z.ones 128) = x.

(** Rows compared by their identifier. *)
Definition id_ge {A} (x y : Z * A) : Prop := y.1 <= x.1.
Definition id_gt {A} (x y : Z * A) : Prop := y.1 < x.1.

(** The lines a listing prints for one row. *)
Definition user_lines (r : Z * user) : list string :=
  ["User id: " +:+ pretty r.1;
   "  Email: " +:+ email r.2;
   "  Name: " +:+ lastname r.2 +:+ " , " +:+ firstname r.2;
   "  Folder: " +:+ bucketfolder r.2].

Definition asset_lines (r : Z * asset) : list string :=
  ["Asset id: " +:+ pretty r.1;
   "  User id: " +:+ pretty (userid r.2);
   "  Original name: " +:+ assetname r.2;
   "  Key name: " +:+ bucketkey r.2].

(** What [prompt] prints before it reads. *)
Definition menu : list string :=
  [""; ">> Enter a command:"; "   0 => end"; "   1 => stats"; "   2 => users";
   "   3 => assets"; "   4 => download"; "   5 => download and display";
   "   6 => upload"; "   7 => add user"].

(** The entered identifier [text] names no row of table [t]. *)
Definition no_row {A} (d : database) (t : gmap Z A) (text : string) : Prop :=
  forall k, to_int d text = Some k -> t !! k = None.

(** The insert of [upload] or [adduser], made as the [n]-th external call
    on database [d], returns the absent value. *)
Definition insert_fails (w : world) (n : nat) (q : sql) (params : list val) : Prop :=
  db_fault w n = true \/ execute (db w) q params = None.

(** *** A small session used to exercise the statements *)

Definition sample_db : database :=
  mkDb (<[80001 := mkUser "a@b.com" "Doe" "Jane" "folder-1"]>
        (<[80002 := mkUser "c@d.com" "Roe" "Rick" "folder-2"]> ∅))
       (<[1001 := mkAsset 80001 "cat.jpg" "folder-1/k1.jpg"]>
        (<[1002 := mkAsset 80002 "cat.jpg" "folder-2/k2.jpg"]> ∅))
       80003 1003 0 Py.int.

Definition sample_world (lines : list string) (fault : nat -> bool) : world :=
  mkWorld lines []
          (<["pic.jpg" := "PIC"]> (<["cat.jpg" := "OLD"]> ∅))
          (<["folder-1/k1.jpg" := "IMG1"]> (<["folder-2/k2.jpg" := "IMG2"]> ∅))
          sample_db (fun n => Z.of_nat n * 12345678901234567) 0 fault [].

Definition no_fault : nat -> bool := fun _ => false.
Definition fault_at (n : nat) : nat -> bool := fun i => Nat.eqb i n.

(** Unfolding of the primitives, for symbolic execution of a handler. *)
Ltac unfold_py :=
  unfold bind, ret, raise, print, input, index, subscript, as_str, os_abort,
    os_path_exists, os_rename, show_image, uuid4,
    retrieve_one_row, retrieve_all_rows, perform_action,
    upload_file, download_file, count_objects,
    set_stdin, set_stdout, set_fs, set_bucket, set_db, set_drawn, log_call in *.

Definition empty_db : database := mkDb ∅ ∅ 1 1 0 Py.int.

Definition empty_world (lines : list string) (fault : nat -> bool) : world :=
  mkWorld lines [] ∅ ∅ empty_db (fun _ => 0) 0 fault [].

(** The storage key the upload handler builds for the folder of user [u]. *)
Definition upload_key (w : world) (u : user) : string :=
  bucketfolder u +:+ "/" +:+ str_uuid (uuid4_of (entropy w (drawn w))) +:+ ".jpg".

(** The external calls of an upload that found the user's row. *)
Definition upload_calls (s id key : string) : list call :=
  [DbOneRow SQL_user_by_id [VStr id];
   S3Upload s key;
   DbAction SQL_insert_asset [VStr id; VStr s; VStr key];
   DbOneRow SQL_last_insert_id []].

(** The external calls of adduser. *)
Definition adduser_calls (email ln fn folder : string) : list call :=
  [DbAction SQL_insert_user [VStr email; VStr ln; VStr fn; VStr folder];
   DbOneRow SQL_last_insert_id []].

(** Handler [h], run in [w], returns and prints exactly the lines of [rows],
    in their order, or prints one diagnostic line and no row at all. *)
Definition lists_rows {R} (h : M unit) (lines : Z * R -> list string)
    (w : world) (rows : list (Z * R)) : Prop :=
  (h w).1 = Ok tt /\
  (stdout (h w).2 = stdout w ++ concat (map lines rows) \/
   rows = [] /\ exists diag, stdout (h w).2 = stdout w ++ [diag]).


(** The world after [prompt] printed the menu and consumed one line. *)
Definition prompted (rest : list string) (w : world) : world :=
  set_stdin rest (set_stdout (stdout w ++ menu) w).

(** How the process ended, read off the outcome of [main]. *)
Definition exit_of {A} (o : outcome A) : exit_reason :=
  match o with
  | Ok _ => Done
  | Raised e => Died e
  | Aborted => Killed
  end.

(** The world after the two prints that follow the loop. *)
Definition done_world (w : world) : world :=
  set_stdout (stdout w ++ [""; "** done **"]) w.

(** The same by call-by-value, for handlers with long chains of prints. *)
Ltac exec_py :=
  cbv [bind ret raise print input index subscript as_str os_abort
       os_path_exists os_rename show_image uuid4
       retrieve_one_row retrieve_all_rows perform_action
       upload_file download_file count_objects
       set_stdin set_stdout set_fs set_bucket set_db set_drawn log_call
       stdin stdout fs bucket db entropy drawn db_fault calls] in *.

(** ** The start of a session

    The top-level code of [main.py] before the processing loop: the
    welcome lines, the choice of the configuration file, the reading of the
    configuration and the connection to the database. *)

(** What can go wrong in the libraries the start-up calls. *)
Inductive startup_exn :=
| ProfileNotFound          (* boto3: the credentials file has no such profile *)
| NoSectionOrOption        (* configparser: the section or the option is missing *)
| Builtin (e : exn).       (* an exception of a builtin: EOFError, ValueError *)

Inductive startup_end :=
| Exit (status : Z)                       (* sys.exit(status) *)
| Crash (e : startup_exn)                 (* an exception nobody catches *)
| Ready (bucketname endpoint : string).   (* the processing loop starts *)

(** [print(...)] as a change of the world. *)
Definition say (args : list val) (w : world) : world :=
  set_stdout (stdout w ++ [print_line args]) w.

Definition default_config_file : string := "photoapp-config.ini".
Definition s3_profile : string := "s3readwrite".

Section startup.

(** The libraries, as far as the start-up depends on them.
    [config_get text section option] is what [ConfigParser.get] gives on a
    file with contents [text], [None] where it raises;
    [has_profile text name] says whether boto3 finds the profile [name] in
    the credentials file with contents [text]. *)
Variable config_get : string -> string -> string -> option string.
Variable has_profile : string -> string -> bool.

(** Modelled from the spec: the module [datatier] is not among the sources.
    [get_dbConn] establishes a single connection and returns an absent value
    on failure rather than raising; [true] stands for a connection. *)
Variable get_dbConn : string -> Z -> string -> string -> string -> bool.

Definition startup (w : world) : startup_end * world :=
  let w := say [VStr "** Welcome to PhotoApp **"] w in
  let w := say [] w in
  let w := say [VStr "What config file to use for this session?"] w in
  let w := say [VStr "Press ENTER to use default (photoapp-config.ini),"] w in
  let w := say [VStr "otherwise enter name of config file>"] w in
  match stdin w with
  | [] => (Crash (Builtin EOFError), w)
  | s :: rest =>
      let w := set_stdin rest w in
      let config_file := if String.eqb s "" then default_config_file else s in
      match fs w !! config_file with
      | None =>
          (Exit 0, say [VStr "**ERROR: config file '"; VStr config_file;
                        VStr "' does not exist, exiting"] w)
      | Some text =>
          if negb (has_profile text s3_profile) then (Crash ProfileNotFound, w)
          else
            match config_get text "s3" "bucket_name" with
            | None => (Crash NoSectionOrOption, w)
            | Some bucketname =>
            match config_get text "rds" "endpoint" with
            | None => (Crash NoSectionOrOption, w)
            | Some endpoint =>
            match config_get text "rds" "port_number" with
            | None => (Crash NoSectionOrOption, w)
            | Some port =>
            match Py.int port with
            | None => (Crash (Builtin ValueError), w)
            | Some portnum =>
            match config_get text "rds" "user_name" with
            | None => (Crash NoSectionOrOption, w)
            | Some username =>
            match config_get text "rds" "user_pwd" with
            | None => (Crash NoSectionOrOption, w)
            | Some pwd =>
            match config_get text "rds" "db_name" with
            | None => (Crash NoSectionOrOption, w)
            | Some dbname =>
                if get_dbConn endpoint portnum username pwd dbname
                then (Ready bucketname endpoint, w)
                else (Exit 0, say [VStr "**ERROR: unable to connect to database, exiting"] w)
            end end end end end end end
      end
  end.

(** How the whole program ended. *)
Inductive program_end :=
| Stopped (e : startup_end)          (* the session never started *)
| Ran (o : outcome bool).            (* the outcome of the processing loop *)

(** The program: the start-up, then the processing loop with the bucket
    name and the endpoint of the configuration. *)
Definition program (fuel : nat) (w : world) : program_end * world :=
  match startup w with
  | (Ready bucketname endpoint, w1) =>
      let (o, w2) := main bucketname endpoint fuel w1 in (Ran o, w2)
  | (e, w1) => (Stopped e, w1)
  end.

End startup.

(** The five lines the start-up prints before it reads. *)
Definition welcome : list string :=
  ["** Welcome to PhotoApp **"; "";
   "What config file to use for this session?";
   "Press ENTER to use default (photoapp-config.ini),";
   "otherwise enter name of config file>"].

(** ** Vocabulary of further properties *)




(** Nothing outside the console changed between [w] and [w']. *)
Definition same_stores (w w' : world) : Prop :=
  db w' = db w /\ bucket w' = bucket w /\ fs w' = fs w.

(** A configuration reader for the examples: every option is present. *)
Definition sample_config (text section key : string) : option string :=
  if String.eqb key "port_number" then Some "3306" else Some (section +:+ "." +:+ key).

(** What a listing prints: the diagnostic of a failed query, the diagnostic
    of an empty answer, or the lines of the rows. *)
Definition listing_output {R} (lines : Z * R -> list string) (failed : bool)
    (rows : list (Z * R)) : list string :=
  if failed then ["Database operation failed..."]
  else match rows with
       | [] => ["Unexpected query failure..."]
       | _ :: _ => concat (map lines rows)
       end.

(** Everything an upload of file [s] for the user id text [id] needs to go
    through: the file exists with contents [c], the id reads as [k], a row
    of user [k] exists, the next asset id is free, and none of the three
    database calls fails. *)
Definition can_upload (w : world) (s id : string) (k : Z) (u : user) (c : string) : Prop :=
  fs w !! s = Some c /\
  to_int (db w) id = Some k /\
  tbl_users (db w) !! k = Some u /\
  tbl_assets (db w) !! assets_auto (db w) = None /\
  db_fault w (length (calls w)) = false /\
  db_fault w (S (S (length (calls w)))) = false /\
  db_fault w (S (S (S (length (calls w))))) = false.

(** The database after the insert of an asset row. *)
Definition with_asset (d : database) (a : asset) : database :=
  mkDb (tbl_users d) (<[assets_auto d := a]> (tbl_assets d))
       (users_auto d) (assets_auto d + 1) (assets_auto d) (to_int d).

(** The world such an upload leaves. *)
Definition uploaded (w : world) (s id : string) (rest : list string)
    (k : Z) (u : user) (c : string) : world :=
  mkWorld rest
    (stdout w ++
     ["Enter local file name>"; "Enter user id>";
      "Uploaded and stored in S3 as ' " +:+ upload_key w u +:+ " '";
      "Recorded in RDS under asset id " +:+ pretty (assets_auto (db w))])
    (fs w)
    (<[upload_key w u := c]> (bucket w))
    (with_asset (db w) (mkAsset k s (upload_key w u)))
    (entropy w) (S (drawn w)) (db_fault w)
    (calls w ++ upload_calls s id (upload_key w u)).

(** The same for adduser: the next user id is free and neither database
    call fails. *)
Definition can_adduser (w : world) : Prop :=
  tbl_users (db w) !! users_auto (db w) = None /\
  db_fault w (length (calls w)) = false /\
  db_fault w (S (length (calls w))) = false.

Definition with_user (d : database) (u : user) : database :=
  mkDb (<[users_auto d := u]> (tbl_users d)) (tbl_assets d)
       (users_auto d + 1) (assets_auto d) (users_auto d) (to_int d).

(** The folder identifier adduser generates in [w]. *)
Definition new_folder (w : world) : string :=
  str_uuid (uuid4_of (entropy w (drawn w))).

Definition user_added (w : world) (e0 l f : string) (rest : list string) : world :=
  mkWorld rest
    (stdout w ++
     ["Enter user's email>"; "Enter user's last (family) name>";
      "Enter user's first (given) name>";
      "Recorded in RDS under asset id " +:+ pretty (users_auto (db w))])
    (fs w) (bucket w)
    (with_user (db w) (mkUser e0 l f (new_folder w)))
    (entropy w) (S (drawn w)) (db_fault w)
    (calls w ++ adduser_calls e0 l f (new_folder w)).


(** * Properties *)

(** ** The builtins on concrete values *)

Example int_accepts :
  Py.int " 5 " = Some 5 /\ Py.int "-12" = Some (-12) /\ Py.int "+7" = Some 7 /\
  Py.int "1_000" = Some 1000 /\ Py.int "007" = Some 7.
Proof. repeat split; reflexivity. Qed.

Example int_rejects :
  Py.int "1__0" = None /\ Py.int "_1" = None /\ Py.int "1_" = None /\
  Py.int "abc" = None /\ Py.int "" = None /\ Py.int "- 5" = None /\
  Py.int "4.0" = None.
Proof. repeat split; reflexivity. Qed.

Example print_line_joins :
  print_line [VStr "User id:"; VInt 80001] = "User id: 80001" /\
  print_line [VStr "  Name:"; VStr "Doe"; VStr ","; VStr "Jane"] = "  Name: Doe , Jane" /\
  print_line [] = "".
Proof. repeat split; vm_compute; reflexivity. Qed.

Example uuid4_text :
  str_uuid (uuid4_of 0) = "00000000-0000-4000-8000-000000000000" /\
  str_uuid (uuid4_of (2 ^ 128 - 1)) = "ffffffff-ffff-4fff-bfff-ffffffffffff".
Proof. split; vm_compute; reflexivity. Qed.

(** ** A session, run from end to end *)

Example session_output :
  (main "photoapp" "db.example.org" 10
        (sample_world ["9"; "4"; "1001"; "2"; "0"] no_fault)).1 = Ok true /\
  stdout (main "photoapp" "db.example.org" 10
               (sample_world ["9"; "4"; "1001"; "2"; "0"] no_fault)).2 =
    menu ++ ["** Unknown command, try again..."] ++
    menu ++ ["Enter asset id>"; "Downloaded from S3 and saved as ' cat.jpg '"] ++
    menu ++ ["User id: 80002"; "  Email: c@d.com"; "  Name: Roe , Rick";
             "  Folder: folder-2";
             "User id: 80001"; "  Email: a@b.com"; "  Name: Doe , Jane";
             "  Folder: folder-1"] ++
    menu ++ [""; "** done **"].
Proof. split; vm_compute; reflexivity. Qed.

Example session_upload :
  stdout (upload (sample_world ["pic.jpg"; "80001"] no_fault)).2 =
    ["Enter local file name>"; "Enter user id>";
     "Uploaded and stored in S3 as ' folder-1/00000000-0000-4000-8000-000000000000.jpg '";
     "Recorded in RDS under asset id 1003"] /\
  calls (upload (sample_world ["pic.jpg"; "80001"] no_fault)).2 =
    upload_calls "pic.jpg" "80001" "folder-1/00000000-0000-4000-8000-000000000000.jpg".
Proof. split; vm_compute; reflexivity. Qed.


(** ** The random token is a 128-bit number *)

Lemma fits128_mod (x : Z) : fits128 (x mod 2 ^ 128).
Proof.
  unfold fits128. rewrite Z.land_ones by discriminate.
  apply Z.mod_mod. discriminate.
Qed.

Lemma fits128_land (x y : Z) : fits128 x -> fits128 (Z.land x y).
Proof.
  unfold fits128. intros H.
  rewrite <- Z.land_assoc, (Z.land_comm y), Z.land_assoc. by rewrite H.
Qed.

Lemma fits128_lor (x y : Z) : fits128 x -> fits128 y -> fits128 (Z.lor x y).
Proof.
  unfold fits128. intros Hx Hy. rewrite Z.land_lor_distr_l. by rewrite Hx, Hy.
Qed.

Lemma fits128_range (x : Z) : fits128 x -> 0 <= x < 2 ^ 128.
Proof.
  unfold fits128. intros H. rewrite <- H, Z.land_ones by discriminate.
  apply Z.mod_pos_bound. reflexivity.
Qed.

Lemma uuid4_of_range (random : Z) : 0 <= uuid4_of random < 2 ^ 128.
Proof.
  apply fits128_range. unfold uuid4_of.
  apply fits128_lor; [|reflexivity].
  apply fits128_land.
  apply fits128_lor; [|reflexivity].
  apply fits128_land, fits128_mod.
Qed.

(** ** [order by ... desc] lists every row once, largest identifier first *)

Section order_by.
Context {A : Type}.
Implicit Types (x : Z * A) (l : list (Z * A)) (t : gmap Z A).

Lemma insert_desc_perm x l : insert_desc x l ≡ₚ x :: l.
Proof.
  induction l as [|y l IH]; simpl; [done|].
  destruct (y.1 <=? x.1); [done|].
  rewrite IH. apply perm_swap.
Qed.

Lemma order_by_desc_perm t : order_by_desc t ≡ₚ map_to_list t.
Proof.
  unfold order_by_desc. induction (map_to_list t) as [|x l IH]; simpl; [done|].
  rewrite insert_desc_perm. by rewrite IH.
Qed.

Lemma insert_desc_sorted x l :
  StronglySorted id_ge l -> StronglySorted id_ge (insert_desc x l).
Proof.
  induction 1 as [|y l Hl IH Hy]; simpl.
  - repeat constructor.
  - destruct (y.1 <=? x.1) eqn:E.
    + apply Z.leb_le in E. constructor; [by constructor|].
      constructor; [exact E|].
      eapply Forall_impl; [exact Hy|]. unfold id_ge. intros z Hz. lia.
    + apply Z.leb_gt in E. constructor; [exact IH|].
      rewrite insert_desc_perm. constructor; [unfold id_ge; lia | exact Hy].
Qed.

Lemma sorted_nodup_strict l :
  StronglySorted id_ge l -> NoDup (l.*1) -> StronglySorted id_gt l.
Proof.
  induction 1 as [|y l Hl IH Hy]; simpl; intros Hnd; [constructor|].
  apply NoDup_cons in Hnd as [Hnotin Hnd].
  constructor; [by apply IH|].
  apply Forall_forall. intros z Hz.
  rewrite Forall_forall in Hy. specialize (Hy z Hz). unfold id_ge in Hy. unfold id_gt.
  assert (z.1 <> y.1); [|lia].
  intros Heq. apply Hnotin. rewrite <- Heq. apply list_elem_of_fmap. by exists z.
Qed.

Lemma order_by_desc_sorted t : StronglySorted id_gt (order_by_desc t).
Proof.
  apply sorted_nodup_strict.
  - unfold order_by_desc. induction (map_to_list t) as [|x l IH]; simpl.
    + constructor.
    + by apply insert_desc_sorted.
  - rewrite order_by_desc_perm. apply NoDup_fst_map_to_list.
Qed.

Lemma order_by_desc_lookup t x : x ∈ order_by_desc t <-> t !! x.1 = Some x.2.
Proof.
  rewrite order_by_desc_perm. destruct x as [k a]. apply elem_of_map_to_list.
Qed.

Lemma order_by_desc_nil t : order_by_desc t = [] <-> t = ∅.
Proof.
  split.
  - intros H. apply map_to_list_empty_iff. apply Permutation_nil_r.
    rewrite <- H. symmetry. apply order_by_desc_perm.
  - intros ->. unfold order_by_desc. by rewrite map_to_list_empty.
Qed.

End order_by.

(** ** Upload: invalid input ends the process *)

(** C2. In every run of the upload handler: if the entered local path does
    not exist, the handler prints that the file does not exist, makes no
    storage call and no database call, and the process is killed; if the
    entered user id matches no user row, the handler prints that there is
    no such user and the process is killed as well.  In both cases the
    dispatcher goes from [running_handler] to [terminated], not back to
    [awaiting_command]. *)
Theorem upload_invalid_input_kills_process
    (bucketname endpoint : string) (w : world) (s : string) (rest : list string) :
  stdin w = s :: rest ->
  (fs w !! s = None ->
   exists w',
     upload w = (Aborted, w') /\
     stdout w' = stdout w ++ ["Enter local file name>";
                              "Local file ' " +:+ s +:+ " ' does not exist..."] /\
     calls w' = calls w /\ db w' = db w /\ bucket w' = bucket w /\
     step bucketname endpoint (running_handler 6) w = (terminated Killed, w')) /\
  (forall id rest',
     rest = id :: rest' ->
     is_Some (fs w !! s) ->
     no_row (db w) (tbl_users (db w)) id ->
     exists w',
       upload w = (Aborted, w') /\
       stdout w' = stdout w ++ ["Enter local file name>"; "Enter user id>"; "No such user..."] /\
       calls w' = calls w ++ [DbOneRow SQL_user_by_id [VStr id]] /\
       db w' = db w /\ bucket w' = bucket w /\
       step bucketname endpoint (running_handler 6) w = (terminated Killed, w')).
Proof.
  intros Hin. destruct w as [i o f b d e n ft cs]; simpl in *; subst. split.
  - intros Hfs. unfold step, dispatch; simpl. unfold upload. unfold_py. simpl.
    rewrite Hfs. simpl.
    eexists; split; [reflexivity|]. simpl. rewrite <- app_assoc. simpl. auto 10.
  - intros id rest' -> [c Hfs] Hno. unfold step, dispatch; simpl.
    unfold upload. unfold_py. simpl. rewrite Hfs. simpl.
    destruct (ft _); simpl.
    + eexists; split; [reflexivity|]. simpl. rewrite <- !app_assoc. simpl. auto 10.
    + destruct (to_int d id) as [k|] eqn:Hk; simpl.
      * rewrite (Hno k Hk). simpl.
        eexists; split; [reflexivity|]. simpl. rewrite <- !app_assoc. simpl. auto 10.
      * eexists; split; [reflexivity|]. simpl. rewrite <- !app_assoc. simpl. auto 10.
Qed.

Lemma upload_invalid_input_witness :
  (exists w', upload (sample_world ["/tmp/nope.jpg"] no_fault) = (Aborted, w') /\ calls w' = []) /\
  (exists w', upload (sample_world ["pic.jpg"; "9"] no_fault) = (Aborted, w') /\
              calls w' = [DbOneRow SQL_user_by_id [VStr "9"]]).
Proof.
  split.
  - destruct (upload_invalid_input_kills_process "bkt" "host"
                (sample_world ["/tmp/nope.jpg"] no_fault) "/tmp/nope.jpg" [] eq_refl)
      as [H _].
    destruct H as (w' & Hup & _ & Hc & _); [reflexivity|]. exists w'. split; assumption.
  - destruct (upload_invalid_input_kills_process "bkt" "host"
                (sample_world ["pic.jpg"; "9"] no_fault) "pic.jpg" ["9"] eq_refl)
      as [_ H].
    destruct (H "9" [] eq_refl) as (w' & Hup & _ & Hc & _).
    + exists "PIC". reflexivity.
    + intros k Hk. vm_compute in Hk. injection Hk as <-. reflexivity.
    + exists w'. split; assumption.
Defined.

(** ** Download of an asset that is not in the table *)

(** C3, as stated, fails when the lookup itself fails: asset id 7 is in no
    row, the data tier answers with the absent value, and the handler
    reports a failed database operation, not a missing asset. *)
Lemma download_hard_failure_counterexample :
  no_row sample_db (tbl_assets sample_db) "7" /\
  download false (sample_world ["7"] (fault_at 0)) =
    (Ok tt,
     mkWorld [] ["Enter asset id>"; "Database operation failed..."]
             (fs (sample_world ["7"] (fault_at 0)))
             (bucket (sample_world ["7"] (fault_at 0)))
             sample_db (entropy (sample_world ["7"] (fault_at 0))) 0 (fault_at 0)
             [DbOneRow SQL_asset_by_id [VStr "7"]]) /\
  "No such asset..." ∉ stdout (download false (sample_world ["7"] (fault_at 0))).2.
Proof.
  split; [|split].
  - intros k Hk. vm_compute in Hk. injection Hk as <-. reflexivity.
  - reflexivity.
  - simpl. intros H. repeat (apply elem_of_cons in H as [H|H]; [discriminate H|]).
    by apply elem_of_nil in H.
Qed.

(** C3, amended. For every asset id [A] that no row of the assets table
    has: the download handler makes the lookup and nothing else (no storage
    call, no rename, no display; files and bucket are untouched) and
    returns; it reports "No such asset..." when the lookup executes, and
    "Database operation failed..." when the lookup hits an execution
    failure. *)
Theorem download_unknown_asset
    (w : world) (A : string) (rest : list string) (display : bool) :
  stdin w = A :: rest ->
  no_row (db w) (tbl_assets (db w)) A ->
  exists w',
    download display w = (Ok tt, w') /\
    calls w' = calls w ++ [DbOneRow SQL_asset_by_id [VStr A]] /\
    List.filter is_storage_call (calls w') = List.filter is_storage_call (calls w) /\
    fs w' = fs w /\ bucket w' = bucket w /\
    stdout w' = stdout w ++
      ["Enter asset id>";
       if db_fault w (length (calls w)) then "Database operation failed..."
       else "No such asset..."].
Proof.
  intros Hin Hno. destruct w as [i o f b d e n ft cs]; simpl in *; subst.
  unfold download. unfold_py. simpl.
  destruct (ft _); simpl.
  - eexists; split; [reflexivity|]. simpl. rewrite <- !app_assoc, List.filter_app. simpl.
    rewrite app_nil_r. repeat split; auto.
  - destruct (to_int d A) as [k|] eqn:Hk; simpl.
    + rewrite (Hno k Hk). simpl.
      eexists; split; [reflexivity|]. simpl. rewrite <- !app_assoc, List.filter_app. simpl.
      rewrite app_nil_r. repeat split; auto.
    + eexists; split; [reflexivity|]. simpl. rewrite <- !app_assoc, List.filter_app. simpl.
      rewrite app_nil_r. repeat split; auto.
Qed.

Lemma download_unknown_asset_witness :
  exists w',
    download true (sample_world ["7"] no_fault) = (Ok tt, w') /\
    calls w' = [DbOneRow SQL_asset_by_id [VStr "7"]] /\
    stdout w' = ["Enter asset id>"; "No such asset..."].
Proof.
  destruct (download_unknown_asset (sample_world ["7"] no_fault) "7" [] true eq_refl)
    as (w' & Hd & Hc & _ & _ & _ & Ho).
  - intros k Hk. vm_compute in Hk. injection Hk as <-. reflexivity.
  - exists w'. repeat split; assumption.
Defined.

(** ** What the handlers print for an empty result and for a failed query *)

(** C1, as stated, fails for the upload handler: user id 9 is in no row.
    Whether the lookup answers with the empty tuple (first session) or with
    the absent value (second session), the handler prints the same
    "No such user..." line. *)
Lemma upload_same_message_counterexample :
  (retrieve_one_row SQL_user_by_id [VStr "9"] (sample_world [] no_fault)).1 = Ok (Some []) /\
  (retrieve_one_row SQL_user_by_id [VStr "9"] (sample_world [] (fault_at 0))).1 = Ok None /\
  stdout (upload (sample_world ["pic.jpg"; "9"] no_fault)).2 =
    ["Enter local file name>"; "Enter user id>"; "No such user..."] /\
  stdout (upload (sample_world ["pic.jpg"; "9"] (fault_at 0))).2 =
    ["Enter local file name>"; "Enter user id>"; "No such user..."].
Proof. repeat split; reflexivity. Qed.

(** C1, amended. In the users, assets and download handlers an empty result
    is reported with a line of its own ("Unexpected query failure..." in the
    listings, "No such asset..." in download) that differs from the line
    for a failed query ("Database operation failed...").  The upload
    handler prints the same "No such user..." line for an empty and for an
    absent result of its user lookup, and the process is killed.  The count
    query of stats and the last-inserted-id query never give an empty
    result. *)
Theorem empty_result_messages (w : world) :
  ((db_fault w (length (calls w)) = true ->
    stdout (users w).2 = stdout w ++ ["Database operation failed..."]) /\
   (db_fault w (length (calls w)) = false ->
    query_all (db w) SQL_users_desc [] = Some [] ->
    stdout (users w).2 = stdout w ++ ["Unexpected query failure..."])) /\
  ((db_fault w (length (calls w)) = true ->
    stdout (assets w).2 = stdout w ++ ["Database operation failed..."]) /\
   (db_fault w (length (calls w)) = false ->
    query_all (db w) SQL_assets_desc [] = Some [] ->
    stdout (assets w).2 = stdout w ++ ["Unexpected query failure..."])) /\
  (forall A rest display,
     stdin w = A :: rest ->
     (db_fault w (length (calls w)) = true ->
      stdout (download display w).2 =
        stdout w ++ ["Enter asset id>"; "Database operation failed..."]) /\
     (db_fault w (length (calls w)) = false ->
      query_one (db w) SQL_asset_by_id [VStr A] = Some [] ->
      stdout (download display w).2 =
        stdout w ++ ["Enter asset id>"; "No such asset..."])) /\
  (forall s id rest,
     stdin w = s :: id :: rest ->
     is_Some (fs w !! s) ->
     db_fault w (length (calls w)) = true \/
       query_one (db w) SQL_user_by_id [VStr id] = Some [] ->
     (upload w).1 = Aborted /\
     stdout (upload w).2 =
       stdout w ++ ["Enter local file name>"; "Enter user id>"; "No such user..."]) /\
  query_one (db w) SQL_counts [] <> Some [] /\
  query_one (db w) SQL_last_insert_id [] <> Some [].
Proof.
  destruct w as [i o f b d e n ft cs]; simpl.
  split; [split|split; [split|split; [|split; [|split]]]].
  - intros Hf. unfold users. unfold_py. simpl. by rewrite Hf.
  - intros Hf Hq. unfold users. unfold_py. simpl in *. rewrite Hf.
    injection Hq as Hq. by rewrite Hq.
  - intros Hf. unfold assets. unfold_py. simpl. by rewrite Hf.
  - intros Hf Hq. unfold assets. unfold_py. simpl in *. rewrite Hf.
    injection Hq as Hq. by rewrite Hq.
  - intros A rest display ->. unfold download. unfold_py. simpl. split.
    + intros Hf. rewrite Hf. simpl. by rewrite <- app_assoc.
    + intros Hf Hq. rewrite Hf, Hq. simpl. by rewrite <- app_assoc.
  - intros s id rest -> [c Hc] Hcase. unfold upload. unfold_py. simpl.
    rewrite Hc. simpl. destruct Hcase as [Hf|Hq].
    + rewrite Hf. simpl. by rewrite <- !app_assoc.
    + simpl in Hq. rewrite Hq. destruct (ft _); simpl; by rewrite <- !app_assoc.
  - discriminate.
  - discriminate.
Qed.

Lemma empty_result_messages_witness :
  stdout (users (empty_world [] (fault_at 0))).2 = ["Database operation failed..."] /\
  stdout (users (empty_world [] no_fault)).2 = ["Unexpected query failure..."] /\
  stdout (assets (empty_world [] (fault_at 0))).2 = ["Database operation failed..."] /\
  stdout (assets (empty_world [] no_fault)).2 = ["Unexpected query failure..."] /\
  stdout (download false (sample_world ["7"] (fault_at 0))).2 =
    ["Enter asset id>"; "Database operation failed..."] /\
  stdout (download false (sample_world ["7"] no_fault)).2 =
    ["Enter asset id>"; "No such asset..."] /\
  stdout (upload (sample_world ["pic.jpg"; "9"] no_fault)).2 =
    ["Enter local file name>"; "Enter user id>"; "No such user..."].
Proof.
  pose proof (empty_result_messages (empty_world [] (fault_at 0))) as (Hu1 & Ha1 & _).
  pose proof (empty_result_messages (empty_world [] no_fault)) as (Hu2 & Ha2 & _).
  pose proof (empty_result_messages (sample_world ["7"] (fault_at 0))) as (_ & _ & Hd1 & _).
  pose proof (empty_result_messages (sample_world ["7"] no_fault)) as (_ & _ & Hd2 & _).
  pose proof (empty_result_messages (sample_world ["pic.jpg"; "9"] no_fault))
    as (_ & _ & _ & Hup & _).
  repeat apply conj.
  - apply (proj1 Hu1). reflexivity.
  - apply (proj2 Hu2); reflexivity.
  - apply (proj1 Ha1). reflexivity.
  - apply (proj2 Ha2); reflexivity.
  - apply (proj1 (Hd1 "7" [] false eq_refl)). reflexivity.
  - apply (proj2 (Hd2 "7" [] false eq_refl)); reflexivity.
  - apply (Hup "pic.jpg" "9" [] eq_refl).
    + exists "PIC". reflexivity.
    + right. reflexivity.
Defined.

(** ** Upload: every way the handler can run *)

Local Arguments execute : simpl never.

Lemma length_snoc {A} (l : list A) (x : A) : length (l ++ [x]) = S (length l).
Proof. rewrite length_app. simpl. lia. Qed.

Lemma execute_insert_asset (d d' : database) (id s key : string) (n : Z) :
  execute d SQL_insert_asset [VStr id; VStr s; VStr key] = Some (d', n) ->
  exists k,
    to_int d id = Some k /\
    tbl_assets d !! assets_auto d = None /\
    tbl_assets d' = <[assets_auto d := mkAsset k s key]> (tbl_assets d) /\
    tbl_users d' = tbl_users d /\ last_insert_id d' = assets_auto d /\ n = 1.
Proof.
  unfold execute. simpl. intros H.
  destruct (to_int d id) as [k|]; [|discriminate].
  destruct (tbl_assets d !! assets_auto d) eqn:E; [discriminate|].
  inversion H; subst; simpl. by exists k.
Qed.

Lemma execute_insert_user (d d' : database) (e l f b : string) (n : Z) :
  execute d SQL_insert_user [VStr e; VStr l; VStr f; VStr b] = Some (d', n) ->
  tbl_users d !! users_auto d = None /\
  tbl_users d' = <[users_auto d := mkUser e l f b]> (tbl_users d) /\
  tbl_assets d' = tbl_assets d /\ last_insert_id d' = users_auto d /\ n = 1.
Proof.
  unfold execute. simpl. intros H.
  destruct (tbl_users d !! users_auto d) eqn:E; [discriminate|].
  by inversion H; subst; simpl.
Qed.

(** An upload whose file exists and whose user lookup returned a row: the
    object is stored, the insert and the re-query are issued one after the
    other, whatever the insert returned, and the handler prints the id of
    the re-query or dies on its absent answer. *)
Lemma upload_with_user (w : world) (s id : string) (rest : list string)
    (k : Z) (u : user) (c : string) :
  stdin w = s :: id :: rest ->
  fs w !! s = Some c ->
  db_fault w (length (calls w)) = false ->
  to_int (db w) id = Some k ->
  tbl_users (db w) !! k = Some u ->
  exists o w',
    upload w = (o, w') /\
    calls w' = calls w ++ upload_calls s id (upload_key w u) /\
    bucket w' = <[upload_key w u := c]> (bucket w) /\
    drawn w' = S (drawn w) /\ fs w' = fs w /\
    (insert_fails w (S (S (length (calls w)))) SQL_insert_asset
                  [VStr id; VStr s; VStr (upload_key w u)] /\ db w' = db w
     \/
     db_fault w (S (S (length (calls w)))) = false /\
     execute (db w) SQL_insert_asset [VStr id; VStr s; VStr (upload_key w u)]
       = Some (db w', 1)) /\
    (db_fault w (S (S (S (length (calls w))))) = true /\ o = Raised TypeError /\
     stdout w' = stdout w ++
       ["Enter local file name>"; "Enter user id>";
        "Uploaded and stored in S3 as ' " +:+ upload_key w u +:+ " '"]
     \/
     db_fault w (S (S (S (length (calls w))))) = false /\ o = Ok tt /\
     stdout w' = stdout w ++
       ["Enter local file name>"; "Enter user id>";
        "Uploaded and stored in S3 as ' " +:+ upload_key w u +:+ " '";
        "Recorded in RDS under asset id " +:+ pretty (last_insert_id (db w'))]).
Proof.
  destruct w as [i o0 f b d e n ft cs]. simpl. intros -> Hfs Hft Hk Hu.
  unfold upload. unfold_py. unfold upload_key, upload_calls, insert_fails. simpl.
  rewrite Hfs. simpl. rewrite Hft. simpl. rewrite Hk, Hu. simpl. rewrite Hfs. simpl.
  rewrite ?length_snoc.
  destruct (ft (S (S (length cs)))) eqn:Hf2; simpl; rewrite ?length_snoc.
  - destruct (ft (S (S (S (length cs))))) eqn:Hf3; simpl;
      (do 2 eexists; split; [reflexivity|]); simpl; rewrite <- ?app_assoc; simpl;
      repeat split; auto.
  - destruct (execute d _ _) as [[d' z]|] eqn:Hex; simpl; rewrite ?length_snoc.
    + destruct (execute_insert_asset _ _ _ _ _ _ Hex) as (_ & _ & _ & _ & _ & _ & ->).
      destruct (ft (S (S (S (length cs))))) eqn:Hf3; simpl;
        (do 2 eexists; split; [reflexivity|]); simpl; rewrite <- ?app_assoc; simpl;
        repeat split; auto.
    + destruct (ft (S (S (S (length cs))))) eqn:Hf3; simpl;
        (do 2 eexists; split; [reflexivity|]); simpl; rewrite <- ?app_assoc; simpl;
        repeat split; auto.
Qed.

(** Either the handler stops before it touches the bucket, having made at
    most the user lookup, or it ran as [upload_with_user] describes. *)
Lemma upload_cases (w : world) (o : outcome unit) (w' : world) :
  upload w = (o, w') ->
  (o <> Ok tt /\ db w' = db w /\ bucket w' = bucket w /\ drawn w' = drawn w /\
   (calls w' = calls w \/
    exists id, calls w' = calls w ++ [DbOneRow SQL_user_by_id [VStr id]])) \/
  (exists s id rest k u c,
     stdin w = s :: id :: rest /\ fs w !! s = Some c /\
     db_fault w (length (calls w)) = false /\
     to_int (db w) id = Some k /\ tbl_users (db w) !! k = Some u).
Proof.
  intros H. destruct w as [i o0 f b d e n ft cs]. unfold upload in H. unfold_py.
  simpl in *.
  destruct i as [|s i]; simpl in H.
  { left. inversion H; subst; simpl. auto 10. }
  destruct (f !! s) as [c|] eqn:Hfs; simpl in H;
    [|left; inversion H; subst; simpl; auto 10].
  destruct i as [|id rest]; simpl in H.
  { left. inversion H; subst; simpl. auto 10. }
  destruct (ft (length cs)) eqn:Hft; simpl in H.
  { left. inversion H; subst; simpl. eauto 10. }
  destruct (to_int d id) as [k|] eqn:Hk; simpl in H;
    [|left; inversion H; subst; simpl; eauto 10].
  destruct (tbl_users d !! k) as [u|] eqn:Hu; simpl in H;
    [|left; inversion H; subst; simpl; eauto 10].
  right. exists s, id, rest, k, u, c. auto.
Qed.

(** ** Upload: the inserted row and its owner *)

(** C4. In every run of the upload handler, the insert statement is issued
    only after the existence lookup of the entered user id returned a
    populated row, and every asset row the run adds to the table carries the
    identifier of a row that is in the users table at that time. *)
Theorem upload_insert_guarded (w : world) (o : outcome unit) (w' : world) :
  upload w = (o, w') ->
  tbl_users (db w') = tbl_users (db w) /\
  (forall q params,
     DbAction q params ∈ drop (length (calls w)) (calls w') ->
     exists s id rest k u,
       stdin w = s :: id :: rest /\
       db_fault w (length (calls w)) = false /\
       query_one (db w) SQL_user_by_id [VStr id] = Some (user_row k u) /\
       user_row k u <> [] /\
       tbl_users (db w) !! k = Some u /\
       q = SQL_insert_asset /\
       params = [VStr id; VStr s; VStr (upload_key w u)]) /\
  (forall n a,
     tbl_assets (db w') !! n = Some a ->
     tbl_assets (db w) !! n = Some a \/ is_Some (tbl_users (db w') !! userid a)).
Proof.
  intros H. destruct (upload_cases w o w' H) as [A|B].
  - destruct A as (_ & Hdb & _ & _ & Hcalls). rewrite Hdb.
    split; [reflexivity|]. split; [|by left].
    intros q params Hin. exfalso.
    destruct Hcalls as [Hc|[id Hc]]; rewrite Hc in Hin.
    + rewrite drop_all in Hin. by apply elem_of_nil in Hin.
    + rewrite drop_app_length in Hin. apply list_elem_of_singleton in Hin. discriminate.
  - destruct B as (s & id & rest & k & u & c & Hin & Hfs & Hft & Hk & Hu).
    destruct (upload_with_user w s id rest k u c Hin Hfs Hft Hk Hu)
      as (o1 & w1 & Hup & Hcalls & _ & _ & _ & Hins & _).
    rewrite H in Hup. injection Hup as <- <-.
    assert (Hq : query_one (db w) SQL_user_by_id [VStr id] = Some (user_row k u)).
    { simpl. by rewrite Hk, Hu. }
    split; [|split].
    + destruct Hins as [[_ ->]|[_ Hex]]; [reflexivity|].
      by destruct (execute_insert_asset _ _ _ _ _ _ Hex) as (_ & _ & _ & _ & ? & _).
    + intros q params Hq'. rewrite Hcalls, drop_app_length in Hq'.
      unfold upload_calls in Hq'.
      exists s, id, rest, k, u.
      repeat (apply elem_of_cons in Hq' as [Hq'|Hq']; [try discriminate Hq'|]).
      * injection Hq' as -> ->. repeat split; auto.
      * by apply elem_of_nil in Hq'.
    + intros n a Hn.
      destruct Hins as [[_ Hdb]|[_ Hex]]; [left; by rewrite <- Hdb|].
      destruct (execute_insert_asset _ _ _ _ _ _ Hex) as (k' & Hk' & _ & Ha & Hus & _).
      rewrite Hk in Hk'. injection Hk' as <-.
      rewrite Ha in Hn. rewrite Hus.
      destruct (decide (assets_auto (db w) = n)) as [<-|Hne].
      * rewrite lookup_insert_eq in Hn. injection Hn as <-. right. simpl. by exists u.
      * rewrite lookup_insert_ne in Hn by done. by left.
Qed.

Lemma upload_insert_guarded_witness :
  tbl_users (db (upload (sample_world ["pic.jpg"; "80001"] no_fault)).2) = tbl_users sample_db /\
  (exists a, tbl_assets (db (upload (sample_world ["pic.jpg"; "80001"] no_fault)).2) !! 1003 = Some a /\
             is_Some (tbl_users sample_db !! userid a)).
Proof.
  pose proof (upload_insert_guarded (sample_world ["pic.jpg"; "80001"] no_fault)
                (upload (sample_world ["pic.jpg"; "80001"] no_fault)).1
                (upload (sample_world ["pic.jpg"; "80001"] no_fault)).2) as H.
  destruct H as (Hu & _ & Ha); [by destruct (upload _)|].
  split; [exact Hu|].
  exists (mkAsset 80001 "pic.jpg" "folder-1/00000000-0000-4000-8000-000000000000.jpg").
  split; [reflexivity|].
  destruct (Ha 1003 (mkAsset 80001 "pic.jpg"
                       "folder-1/00000000-0000-4000-8000-000000000000.jpg"))
    as [Hold|Hnew]; [reflexivity|discriminate Hold|].
  rewrite Hu in Hnew. exact Hnew.
Defined.

(** C5. For every upload that inserts a row: the storage key in the row is
    the folder identifier of the owning user, a slash, the text of a token
    drawn from the random source for this upload (a number below 2^128),
    and ".jpg"; the object is stored under that key; and the row carries
    the entered user id and the entered local file name. *)
Theorem upload_row_contents (w : world) (o : outcome unit) (w' : world) (n : Z) (a : asset) :
  upload w = (o, w') ->
  tbl_assets (db w) !! n = None ->
  tbl_assets (db w') !! n = Some a ->
  exists s id rest u,
    stdin w = s :: id :: rest /\
    to_int (db w) id = Some (userid a) /\
    tbl_users (db w) !! userid a = Some u /\
    assetname a = s /\
    bucketkey a =
      bucketfolder u +:+ "/" +:+ str_uuid (uuid4_of (entropy w (drawn w))) +:+ ".jpg" /\
    0 <= uuid4_of (entropy w (drawn w)) < 2 ^ 128 /\
    drawn w' = S (drawn w) /\
    bucket w' !! bucketkey a = fs w !! s /\
    n = assets_auto (db w).
Proof.
  intros H Hold Hnew. destruct (upload_cases w o w' H) as [A|B].
  - destruct A as (_ & Hdb & _). rewrite Hdb in Hnew. congruence.
  - destruct B as (s & id & rest & k & u & c & Hin & Hfs & Hft & Hk & Hu).
    destruct (upload_with_user w s id rest k u c Hin Hfs Hft Hk Hu)
      as (o1 & w1 & Hup & _ & Hb & Hd & _ & Hins & _).
    rewrite H in Hup. injection Hup as <- <-.
    destruct Hins as [[_ Hdb]|[_ Hex]]; [rewrite Hdb in Hnew; congruence|].
    destruct (execute_insert_asset _ _ _ _ _ _ Hex) as (k' & Hk' & _ & Ha & _).
    rewrite Hk in Hk'. injection Hk' as <-.
    rewrite Ha in Hnew.
    destruct (decide (assets_auto (db w) = n)) as [<-|Hne];
      [|rewrite lookup_insert_ne in Hnew by done; congruence].
    rewrite lookup_insert_eq in Hnew. injection Hnew as <-. simpl.
    exists s, id, rest, u. repeat split; auto.
    + apply uuid4_of_range.
    + apply uuid4_of_range.
    + rewrite Hb. unfold upload_key. by rewrite lookup_insert_eq.
Qed.

Lemma upload_row_contents_witness :
  exists s id rest u,
    stdin (sample_world ["pic.jpg"; "80001"] no_fault) = s :: id :: rest /\
    s = "pic.jpg" /\ id = "80001" /\ bucketfolder u = "folder-1" /\
    tbl_assets (db (upload (sample_world ["pic.jpg"; "80001"] no_fault)).2) !! 1003 =
      Some (mkAsset 80001 "pic.jpg" "folder-1/00000000-0000-4000-8000-000000000000.jpg").
Proof.
  destruct (upload_row_contents (sample_world ["pic.jpg"; "80001"] no_fault)
              (upload (sample_world ["pic.jpg"; "80001"] no_fault)).1
              (upload (sample_world ["pic.jpg"; "80001"] no_fault)).2
              1003
              (mkAsset 80001 "pic.jpg" "folder-1/00000000-0000-4000-8000-000000000000.jpg"))
    as (s & id & rest & u & Hin & _ & Hu & _).
  - by destruct (upload _).
  - reflexivity.
  - reflexivity.
  - injection Hin as <- <- <-. vm_compute in Hu. injection Hu as <-.
    exists "pic.jpg", "80001", [], (mkUser "a@b.com" "Doe" "Jane" "folder-1").
    repeat split; reflexivity.
Defined.

(** ** The listings *)

Lemma for_each_print_user (rows : list (Z * user)) (w : world) :
  for_each (map (fun r => user_row r.1 r.2) rows) print_user w =
    (Ok tt, set_stdout (stdout w ++ concat (map user_lines rows)) w).
Proof.
  revert w. induction rows as [|[k u] rows IH]; intros w.
  - simpl. unfold ret, set_stdout. rewrite app_nil_r. by destruct w.
  - simpl. unfold bind at 1. unfold print_user. unfold_py. simpl.
    rewrite IH. unfold set_stdout. simpl. by rewrite <- !app_assoc.
Qed.

Lemma for_each_print_asset (rows : list (Z * asset)) (w : world) :
  for_each (map (fun r => asset_row r.1 r.2) rows) print_asset w =
    (Ok tt, set_stdout (stdout w ++ concat (map asset_lines rows)) w).
Proof.
  revert w. induction rows as [|[k a] rows IH]; intros w.
  - simpl. unfold ret, set_stdout. rewrite app_nil_r. by destruct w.
  - simpl. unfold bind at 1. unfold print_asset. unfold_py. simpl.
    rewrite IH. unfold set_stdout. simpl. by rewrite <- !app_assoc.
Qed.

Lemma users_lists (w : world) :
  lists_rows users user_lines w
    (if db_fault w (length (calls w)) then [] else order_by_desc (tbl_users (db w))).
Proof.
  unfold lists_rows, users, bind, retrieve_all_rows. simpl.
  destruct (db_fault w (length (calls w))).
  - split; [reflexivity|]. right. split; [reflexivity|]. by eexists.
  - destruct (order_by_desc (tbl_users (db w))) as [|r rows] eqn:E.
    + split; [reflexivity|]. right. split; [reflexivity|]. by eexists.
    + pose proof (for_each_print_user (r :: rows)) as Hfe.
      cbn [map] in *. rewrite Hfe. split; [reflexivity|]. by left.
Qed.

Lemma assets_lists (w : world) :
  lists_rows assets asset_lines w
    (if db_fault w (length (calls w)) then [] else order_by_desc (tbl_assets (db w))).
Proof.
  unfold lists_rows, assets, bind, retrieve_all_rows. simpl.
  destruct (db_fault w (length (calls w))).
  - split; [reflexivity|]. right. split; [reflexivity|]. by eexists.
  - destruct (order_by_desc (tbl_assets (db w))) as [|r rows] eqn:E.
    + split; [reflexivity|]. right. split; [reflexivity|]. by eexists.
    + pose proof (for_each_print_asset (r :: rows)) as Hfe.
      cbn [map] in *. rewrite Hfe. split; [reflexivity|]. by left.
Qed.

(** C6. For every database state (and whether or not the query executes),
    the rows the users listing prints are in strictly descending order of
    user identifier and the rows the assets listing prints are in strictly
    descending order of asset identifier; each printed row is a row of its
    table, and when the query executes every row of the table is printed. *)
Theorem listings_strictly_descending (w : world) :
  exists (urows : list (Z * user)) (arows : list (Z * asset)),
    lists_rows users user_lines w urows /\
    StronglySorted id_gt urows /\
    (forall r, r ∈ urows -> tbl_users (db w) !! r.1 = Some r.2) /\
    lists_rows assets asset_lines w arows /\
    StronglySorted id_gt arows /\
    (forall r, r ∈ arows -> tbl_assets (db w) !! r.1 = Some r.2) /\
    (db_fault w (length (calls w)) = false ->
     urows ≡ₚ map_to_list (tbl_users (db w)) /\
     arows ≡ₚ map_to_list (tbl_assets (db w))).
Proof.
  exists (if db_fault w (length (calls w)) then [] else order_by_desc (tbl_users (db w))),
         (if db_fault w (length (calls w)) then [] else order_by_desc (tbl_assets (db w))).
  split; [apply users_lists|].
  split; [destruct (db_fault _ _); [constructor | apply order_by_desc_sorted]|].
  split.
  { destruct (db_fault _ _); intros r Hr; [by apply elem_of_nil in Hr|].
    by apply order_by_desc_lookup. }
  split; [apply assets_lists|].
  split; [destruct (db_fault _ _); [constructor | apply order_by_desc_sorted]|].
  split.
  { destruct (db_fault _ _); intros r Hr; [by apply elem_of_nil in Hr|].
    by apply order_by_desc_lookup. }
  intros ->. split; apply order_by_desc_perm.
Qed.

Lemma listings_strictly_descending_witness :
  stdout (users (sample_world [] no_fault)).2 =
    concat (map user_lines [(80002, mkUser "c@d.com" "Roe" "Rick" "folder-2");
                            (80001, mkUser "a@b.com" "Doe" "Jane" "folder-1")]) /\
  exists urows arows,
    lists_rows users user_lines (sample_world [] no_fault) urows /\
    StronglySorted id_gt urows /\
    lists_rows assets asset_lines (sample_world [] no_fault) arows /\
    StronglySorted id_gt arows /\
    urows ≡ₚ map_to_list (tbl_users sample_db) /\
    arows ≡ₚ map_to_list (tbl_assets sample_db).
Proof.
  split; [reflexivity|].
  destruct (listings_strictly_descending (sample_world [] no_fault))
    as (urows & arows & Hu & Hus & _ & Ha & Has & _ & Hall).
  destruct Hall as [Hpu Hpa]; [reflexivity|].
  exists urows, arows.
  exact (conj Hu (conj Hus (conj Ha (conj Has (conj Hpu Hpa))))).
Defined.

(** ** The command dispatcher *)

Local Arguments Py.int : simpl never.

Lemma print_bind {A} (args : list val) (k : unit -> M A) (w : world) :
  bind (print args) k w = k tt (set_stdout (stdout w ++ [print_line args]) w).
Proof. reflexivity. Qed.

Lemma prompt_run (w : world) :
  prompt w =
    match stdin w with
    | [] => (Raised EOFError, set_stdout (stdout w ++ menu) w)
    | line :: rest =>
        (match Py.int line with
         | Some cmd => Ok cmd
         | None => Raised ValueError
         end, prompted rest w)
    end.
Proof.
  destruct w as [i o f b d e n ft cs]. unfold prompt, prompted.
  rewrite !print_bind. unfold bind, input, ret, raise.
  cbv [set_stdout set_stdin stdin stdout fs bucket db entropy drawn db_fault calls].
  rewrite <- !app_assoc.
  destruct i as [|line rest]; [reflexivity|].
  by destruct (Py.int line).
Qed.












(** ** The result of the insert statements *)

(** Every run of adduser that got its three lines: the insert and the
    re-query are issued one after the other, whatever the insert returned,
    and the handler prints the id of the re-query or dies on its absent
    answer. *)
Lemma adduser_with_input (w : world) (e0 l f : string) (rest : list string) :
  stdin w = e0 :: l :: f :: rest ->
  let folder := str_uuid (uuid4_of (entropy w (drawn w))) in
  exists o w',
    adduser w = (o, w') /\
    calls w' = calls w ++ adduser_calls e0 l f folder /\
    (insert_fails w (length (calls w)) SQL_insert_user
                  [VStr e0; VStr l; VStr f; VStr folder] /\ db w' = db w
     \/
     db_fault w (length (calls w)) = false /\
     execute (db w) SQL_insert_user [VStr e0; VStr l; VStr f; VStr folder]
       = Some (db w', 1)) /\
    (db_fault w (S (length (calls w))) = true /\ o = Raised TypeError /\
     stdout w' = stdout w ++
       ["Enter user's email>"; "Enter user's last (family) name>";
        "Enter user's first (given) name>"]
     \/
     db_fault w (S (length (calls w))) = false /\ o = Ok tt /\
     stdout w' = stdout w ++
       ["Enter user's email>"; "Enter user's last (family) name>";
        "Enter user's first (given) name>";
        "Recorded in RDS under asset id " +:+ pretty (last_insert_id (db w'))]).
Proof.
  destruct w as [i o0 fs0 b d e n ft cs]. simpl. intros ->.
  unfold adduser, adduser_calls, insert_fails. exec_py.
  rewrite ?length_snoc.
  destruct (ft (length cs)) eqn:Hf1; rewrite ?length_snoc.
  - destruct (ft (S (length cs))) eqn:Hf2;
      (do 2 eexists; split; [reflexivity|]); rewrite <- ?app_assoc;
      repeat split; auto.
  - destruct (execute d _ _) as [[d' z]|] eqn:Hex; rewrite ?length_snoc.
    + destruct (execute_insert_user _ _ _ _ _ _ _ Hex) as (_ & _ & _ & _ & ->).
      destruct (ft (S (length cs))) eqn:Hf2;
        (do 2 eexists; split; [reflexivity|]); rewrite <- ?app_assoc;
        repeat split; auto.
    + destruct (ft (S (length cs))) eqn:Hf2;
        (do 2 eexists; split; [reflexivity|]); rewrite <- ?app_assoc;
        repeat split; auto.
Qed.

(** C9. Neither upload nor adduser looks at what its insert statement
    returned.  When the insert returns the absent value, the handler still
    issues the last-inserted-id re-query next, the tables are unchanged, and
    if the re-query answers, the handler returns after printing the id the
    re-query gave, which is the one the session had before.  In upload, when
    the re-query returns the absent value, subscripting it raises
    [TypeError], which nothing catches, whatever the insert returned. *)
Theorem insert_result_not_inspected (w : world) :
  (forall s id rest k u c,
     stdin w = s :: id :: rest ->
     fs w !! s = Some c ->
     db_fault w (length (calls w)) = false ->
     to_int (db w) id = Some k ->
     tbl_users (db w) !! k = Some u ->
     exists o w',
       upload w = (o, w') /\
       calls w' = calls w ++ upload_calls s id (upload_key w u) /\
       (db_fault w (S (S (S (length (calls w))))) = true -> o = Raised TypeError) /\
       (insert_fails w (S (S (length (calls w)))) SQL_insert_asset
                     [VStr id; VStr s; VStr (upload_key w u)] ->
        db w' = db w /\
        (db_fault w (S (S (S (length (calls w))))) = false ->
         o = Ok tt /\
         stdout w' = stdout w ++
           ["Enter local file name>"; "Enter user id>";
            "Uploaded and stored in S3 as ' " +:+ upload_key w u +:+ " '";
            "Recorded in RDS under asset id " +:+ pretty (last_insert_id (db w))]))) /\
  (forall e0 l f rest,
     stdin w = e0 :: l :: f :: rest ->
     exists o w',
       adduser w = (o, w') /\
       calls w' = calls w ++
         adduser_calls e0 l f (str_uuid (uuid4_of (entropy w (drawn w)))) /\
       (insert_fails w (length (calls w)) SQL_insert_user
                     [VStr e0; VStr l; VStr f;
                      VStr (str_uuid (uuid4_of (entropy w (drawn w))))] ->
        db w' = db w /\
        (db_fault w (S (length (calls w))) = false ->
         o = Ok tt /\
         stdout w' = stdout w ++
           ["Enter user's email>"; "Enter user's last (family) name>";
            "Enter user's first (given) name>";
            "Recorded in RDS under asset id " +:+ pretty (last_insert_id (db w))]))).
Proof.
  split.
  - intros s id rest k u c Hin Hfs Hft Hk Hu.
    destruct (upload_with_user w s id rest k u c Hin Hfs Hft Hk Hu)
      as (o & w' & Hup & Hcalls & _ & _ & _ & Hins & Hre).
    exists o, w'. split; [exact Hup|]. split; [exact Hcalls|]. split.
    + intros Hf. destruct Hre as [(_ & Ho & _)|(Hf' & _)]; [exact Ho|congruence].
    + intros Hfail.
      assert (Hdb : db w' = db w).
      { destruct Hins as [[_ Hdb]|[Hnf Hex]]; [exact Hdb|].
        destruct Hfail as [Hf|Hnone]; congruence. }
      split; [exact Hdb|]. intros Hf.
      destruct Hre as [(Hf' & _)|(_ & Ho & Hout)]; [congruence|].
      rewrite Hdb in Hout. by split.
  - intros e0 l f rest Hin.
    destruct (adduser_with_input w e0 l f rest Hin)
      as (o & w' & Hadd & Hcalls & Hins & Hre).
    exists o, w'. split; [exact Hadd|]. split; [exact Hcalls|].
    intros Hfail.
    assert (Hdb : db w' = db w).
    { destruct Hins as [[_ Hdb]|[Hnf Hex]]; [exact Hdb|].
      destruct Hfail as [Hf|Hnone]; congruence. }
    split; [exact Hdb|]. intros Hf.
    destruct Hre as [(Hf' & _)|(_ & Ho & Hout)]; [congruence|].
    rewrite Hdb in Hout. by split.
Qed.

Lemma insert_result_not_inspected_witness :
  (exists w',
     upload (sample_world ["pic.jpg"; "80001"] (fault_at 2)) = (Ok tt, w') /\
     db w' = sample_db /\
     last (stdout w') = Some "Recorded in RDS under asset id 0") /\
  (exists w',
     upload (sample_world ["pic.jpg"; "80001"] (fault_at 3)) = (Raised TypeError, w')) /\
  (exists w',
     adduser (sample_world ["a@b.com"; "Doe"; "Jane"] (fault_at 0)) = (Ok tt, w') /\
     db w' = sample_db /\
     last (stdout w') = Some "Recorded in RDS under asset id 0").
Proof.
  split; [|split].
  - destruct (insert_result_not_inspected (sample_world ["pic.jpg"; "80001"] (fault_at 2)))
      as (H & _).
    destruct (H "pic.jpg" "80001" [] 80001 (mkUser "a@b.com" "Doe" "Jane" "folder-1") "PIC"
                eq_refl eq_refl eq_refl eq_refl eq_refl)
      as (o & w' & Hup & _ & _ & Hfail).
    destruct Hfail as (Hdb & Hre); [by left|].
    destruct Hre as (-> & Hout); [reflexivity|].
    exists w'. split; [exact Hup|]. split; [exact Hdb|]. by rewrite Hout.
  - destruct (insert_result_not_inspected (sample_world ["pic.jpg"; "80001"] (fault_at 3)))
      as (H & _).
    destruct (H "pic.jpg" "80001" [] 80001 (mkUser "a@b.com" "Doe" "Jane" "folder-1") "PIC"
                eq_refl eq_refl eq_refl eq_refl eq_refl)
      as (o & w' & Hup & _ & Hraise & _).
    rewrite (Hraise eq_refl) in Hup. by exists w'.
  - destruct (insert_result_not_inspected
                (sample_world ["a@b.com"; "Doe"; "Jane"] (fault_at 0)))
      as (_ & H).
    destruct (H "a@b.com" "Doe" "Jane" [] eq_refl) as (o & w' & Hadd & _ & Hfail).
    destruct Hfail as (Hdb & Hre); [by left|].
    destruct Hre as (-> & Hout); [reflexivity|].
    exists w'. split; [exact Hadd|]. split; [exact Hdb|]. by rewrite Hout.
Defined.

(** ** Download: the file the asset is saved as *)




(** ** The state machine is the [while] loop *)

Lemma bind_run {A B} (m : M A) (k : A -> M B) (w : world) :
  bind m k w =
    match m w with
    | (Ok a, w') => k a w'
    | (Raised e, w') => (Raised e, w')
    | (Aborted, w') => (Aborted, w')
    end.
Proof. reflexivity. Qed.

Lemma step_running (bucketname endpoint : string) (cmd : Z) (w : world) :
  step bucketname endpoint (running_handler cmd) w =
    after (dispatch bucketname endpoint cmd w) (fun _ w1 => (awaiting_command, w1)).
Proof. reflexivity. Qed.

Lemma closing_prints {A} (a : A) (w : world) :
  (print [] ;; print [VStr "** done **"] ;; ret a) w = (Ok a, done_world w).
Proof.
  destruct w as [i o f b d e n ft cs]. rewrite !print_bind. unfold ret, done_world.
  cbv [set_stdout stdin stdout fs bucket db entropy drawn db_fault calls].
  by rewrite <- app_assoc.
Qed.

Lemma step_prompted (bucketname endpoint : string) (w w1 : world) (cmd : Z) :
  prompt w = (Ok cmd, w1) ->
  step bucketname endpoint awaiting_command w =
    if cmd =? 0 then (terminated Done, done_world w1)
    else if recognized cmd then (running_handler cmd, w1)
    else after (dispatch bucketname endpoint cmd w1) (fun _ w2 => (awaiting_command, w2)).
Proof.
  intros H. unfold step. rewrite H. unfold after at 1.
  destruct (cmd =? 0); [|reflexivity].
  destruct w1 as [i o f b d e n ft cs]. rewrite print_bind. unfold print, after, done_world.
  cbv [set_stdout stdin stdout fs bucket db entropy drawn db_fault calls].
  by rewrite <- app_assoc.
Qed.

Lemma step_prompt_failed (bucketname endpoint : string) (w w1 : world) (o : outcome Z) :
  prompt w = (o, w1) ->
  (forall cmd, o <> Ok cmd) ->
  step bucketname endpoint awaiting_command w = (terminated (exit_of o), w1).
Proof.
  intros H Hno. unfold step. rewrite H.
  destruct o as [cmd| |]; [by destruct (Hno cmd)|reflexivity|reflexivity].
Qed.

Lemma steps_S (bucketname endpoint : string) (n : nat) (s s' : state) (w w' : world) :
  step bucketname endpoint s w = (s', w') ->
  steps bucketname endpoint (S n) s w = steps bucketname endpoint n s' w'.
Proof. intros H. simpl. by rewrite H. Qed.

Lemma steps_app (bucketname endpoint : string) (m n : nat) (s s' : state) (w w' : world) :
  steps bucketname endpoint m s w = (s', w') ->
  steps bucketname endpoint (m + n) s w = steps bucketname endpoint n s' w'.
Proof.
  revert s w. induction m as [|m IH]; intros s w Hm.
  - simpl in Hm. by inversion Hm.
  - change (S m + n)%nat with (S (m + n)).
    destruct (step bucketname endpoint s w) as [s1 w1] eqn:Hs.
    rewrite (steps_S _ _ _ _ _ _ _ Hs). rewrite (steps_S _ _ _ _ _ _ _ Hs) in Hm.
    by apply IH.
Qed.

(** From a prompt that returned [cmd] to the end of the program: what the
    loop computes, the machine reaches in finitely many steps. *)
Lemma while_loop_steps (bucketname endpoint : string) (fuel : nat) :
  forall (cmd : Z) (w0 w : world) (o : outcome bool) (w' : world),
    prompt w0 = (Ok cmd, w) ->
    bind (while_loop bucketname endpoint fuel cmd)
         (fun finished =>
            if finished then print [] ;; print [VStr "** done **"] ;; ret true
            else ret false) w
      = (o, w') ->
    o <> Ok false ->
    exists n, steps bucketname endpoint n awaiting_command w0 = (terminated (exit_of o), w').
Proof.
  induction fuel as [|fuel IH]; intros cmd w0 w o w' Hp Hrun Hfin.
  - rewrite bind_run in Hrun. simpl in Hrun.
    pose proof (step_prompted bucketname endpoint w0 w cmd Hp) as Hs.
    destruct (cmd =? 0).
    + unfold ret at 1 in Hrun. rewrite closing_prints in Hrun. inversion Hrun; subst.
      exists 1%nat. by rewrite (steps_S _ _ _ _ _ _ _ Hs).
    + unfold ret in Hrun. inversion Hrun; subst. by destruct Hfin.
  - rewrite bind_run in Hrun. simpl in Hrun.
    pose proof (step_prompted bucketname endpoint w0 w cmd Hp) as Hs.
    destruct (cmd =? 0).
    + unfold ret at 1 in Hrun. rewrite closing_prints in Hrun. inversion Hrun; subst.
      exists 1%nat. by rewrite (steps_S _ _ _ _ _ _ _ Hs).
    + rewrite bind_run in Hrun.
      (* after the handler: the machine is back in [awaiting_command], or ended *)
      assert (Hafter : forall s1 w1,
                after (dispatch bucketname endpoint cmd w) (fun _ w2 => (awaiting_command, w2))
                  = (s1, w1) ->
                exists m, steps bucketname endpoint m awaiting_command w0 = (s1, w1)).
      { intros s1 w1 Ha. destruct (recognized cmd).
        - exists 2%nat. rewrite (steps_S _ _ _ _ _ _ _ Hs).
          rewrite (steps_S _ _ _ _ s1 _ w1); [reflexivity|].
          by rewrite step_running.
        - exists 1%nat. rewrite (steps_S _ _ _ _ s1 _ w1); [reflexivity|].
          by rewrite Hs. }
      destruct (dispatch bucketname endpoint cmd w) as [[[]|e|] w1] eqn:Hd.
      * destruct (Hafter awaiting_command w1 eq_refl) as [m Hm].
        rewrite bind_run in Hrun.
        destruct (prompt w1) as [[cmd'|e|] w2] eqn:Hp1.
        -- rewrite <- bind_run in Hrun.
           destruct (IH cmd' w1 w2 o w' Hp1 Hrun Hfin) as [n Hn].
           exists (m + n)%nat. by rewrite (steps_app _ _ _ _ _ _ _ _ Hm).
        -- inversion Hrun; subst.
           exists (m + 1)%nat.
           pose proof (step_prompt_failed bucketname endpoint w1 w' (Raised e) Hp1
                         ltac:(discriminate)) as Hs1.
           rewrite (steps_app _ _ _ _ _ _ _ _ Hm).
           by rewrite (steps_S _ _ _ _ _ _ _ Hs1).
        -- inversion Hrun; subst.
           exists (m + 1)%nat.
           pose proof (step_prompt_failed bucketname endpoint w1 w' Aborted Hp1
                         ltac:(discriminate)) as Hs1.
           rewrite (steps_app _ _ _ _ _ _ _ _ Hm).
           by rewrite (steps_S _ _ _ _ _ _ _ Hs1).
      * inversion Hrun; subst. apply (Hafter (terminated (Died e)) w'). reflexivity.
      * inversion Hrun; subst. apply (Hafter (terminated Killed) w'). reflexivity.
Qed.

Lemma main_run (bucketname endpoint : string) (fuel : nat) (w : world) :
  main bucketname endpoint fuel w =
    match prompt w with
    | (Ok cmd, w1) =>
        bind (while_loop bucketname endpoint fuel cmd)
             (fun finished =>
                if finished then print [] ;; print [VStr "** done **"] ;; ret true
                else ret false) w1
    | (Raised e, w1) => (Raised e, w1)
    | (Aborted, w1) => (Aborted, w1)
    end.
Proof. reflexivity. Qed.

(** Whenever [main] ends within its fuel, the state machine started in
    [awaiting_command] reaches [terminated] with the same final world and
    the matching exit reason. *)
Lemma main_steps (bucketname endpoint : string) (fuel : nat) (w : world)
    (o : outcome bool) (w' : world) :
  main bucketname endpoint fuel w = (o, w') ->
  o <> Ok false ->
  exists n, steps bucketname endpoint n awaiting_command w = (terminated (exit_of o), w').
Proof.
  intros Hm Hfin. rewrite main_run in Hm.
  destruct (prompt w) as [[cmd|e|] w1] eqn:Hp.
  - exact (while_loop_steps bucketname endpoint fuel cmd w w1 o w' Hp Hm Hfin).
  - inversion Hm; subst. exists 1%nat.
    pose proof (step_prompt_failed bucketname endpoint w w' (Raised e) Hp
                  ltac:(discriminate)) as Hs.
    rewrite (steps_S _ _ _ _ _ _ _ Hs). reflexivity.
  - inversion Hm; subst. exists 1%nat.
    pose proof (step_prompt_failed bucketname endpoint w w' Aborted Hp
                  ltac:(discriminate)) as Hs.
    rewrite (steps_S _ _ _ _ _ _ _ Hs). reflexivity.
Qed.

(** * Further properties of the handlers *)

(** ** Stats and the listings only read *)


Lemma users_run (w : world) :
  users w =
    (Ok tt,
     set_stdout
       (stdout w ++
        listing_output user_lines (db_fault w (length (calls w)))
                       (order_by_desc (tbl_users (db w))))
       (log_call (DbAllRows SQL_users_desc []) w)).
Proof.
  unfold users, listing_output, bind, retrieve_all_rows. simpl.
  destruct (db_fault w (length (calls w))); [reflexivity|].
  destruct (order_by_desc (tbl_users (db w))) as [|r rows] eqn:E; [reflexivity|].
  pose proof (for_each_print_user (r :: rows)) as Hfe.
  cbn [map] in *. by rewrite Hfe.
Qed.

Lemma assets_run (w : world) :
  assets w =
    (Ok tt,
     set_stdout
       (stdout w ++
        listing_output asset_lines (db_fault w (length (calls w)))
                       (order_by_desc (tbl_assets (db w))))
       (log_call (DbAllRows SQL_assets_desc []) w)).
Proof.
  unfold assets, listing_output, bind, retrieve_all_rows. simpl.
  destruct (db_fault w (length (calls w))); [reflexivity|].
  destruct (order_by_desc (tbl_assets (db w))) as [|r rows] eqn:E; [reflexivity|].
  pose proof (for_each_print_asset (r :: rows)) as Hfe.
  cbn [map] in *. by rewrite Hfe.
Qed.

(** X2. The two listings always return, make their one query and change
    neither the database, the bucket, the local files nor the pending
    input.  Hence a listing that is run twice in a row prints the same
    lines twice, provided the query executes both times or fails both
    times. *)
Theorem listings_change_nothing (w : world) :
  (exists w1,
     users w = (Ok tt, w1) /\ same_stores w w1 /\ stdin w1 = stdin w /\
     calls w1 = calls w ++ [DbAllRows SQL_users_desc []] /\
     (db_fault w (S (length (calls w))) = db_fault w (length (calls w)) ->
      exists L, stdout w1 = stdout w ++ L /\ stdout (users w1).2 = stdout w1 ++ L)) /\
  (exists w2,
     assets w = (Ok tt, w2) /\ same_stores w w2 /\ stdin w2 = stdin w /\
     calls w2 = calls w ++ [DbAllRows SQL_assets_desc []] /\
     (db_fault w (S (length (calls w))) = db_fault w (length (calls w)) ->
      exists L, stdout w2 = stdout w ++ L /\ stdout (assets w2).2 = stdout w2 ++ L)).
Proof.
  split.
  - eexists. split; [apply users_run|]. unfold same_stores. simpl.
    repeat split; try reflexivity.
    intros Hsame. eexists. split; [reflexivity|].
    rewrite users_run. simpl. rewrite length_snoc. by rewrite Hsame.
  - eexists. split; [apply assets_run|]. unfold same_stores. simpl.
    repeat split; try reflexivity.
    intros Hsame. eexists. split; [reflexivity|].
    rewrite assets_run. simpl. rewrite length_snoc. by rewrite Hsame.
Qed.

Lemma listings_change_nothing_witness :
  exists w1 L,
    users (sample_world [] no_fault) = (Ok tt, w1) /\
    stdout w1 = L /\ stdout (users w1).2 = L ++ L.
Proof.
  destruct (listings_change_nothing (sample_world [] no_fault))
    as ((w1 & Hu & _ & _ & _ & Hrep) & _).
  destruct Hrep as (L & H1 & H2); [reflexivity|].
  exists w1, L. split; [exact Hu|]. split; [exact H1|]. by rewrite H2, H1.
Defined.

(** ** Download *)

(** Every way the download handler can run. *)
Lemma download_run (display : bool) (w : world) :
  download display w =
    match stdin w with
    | [] => (Raised EOFError, say [VStr "Enter asset id>"] w)
    | A :: rest =>
        let w1 := log_call (DbOneRow SQL_asset_by_id [VStr A])
                    (set_stdin rest (say [VStr "Enter asset id>"] w)) in
        if db_fault w (length (calls w))
        then (Ok tt, say [VStr "Database operation failed..."] w1)
        else
          match to_int (db w) A ≫= (fun k => tbl_assets (db w) !! k) with
          | None => (Ok tt, say [VStr "No such asset..."] w1)
          | Some a =>
              let w2 := log_call (S3Download (bucketkey a)) w1 in
              match bucket w !! bucketkey a with
              | None => (Raised ClientError, w2)
              | Some c =>
                  let tmp := str_uuid (uuid4_of (entropy w (drawn w))) in
                  let w3 :=
                    say [VStr "Downloaded from S3 and saved as '"; VStr (assetname a); VStr "'"]
                      (log_call (OsRename tmp (assetname a))
                         (set_fs (<[assetname a := c]> (delete tmp (<[tmp := c]> (fs w))))
                            (set_drawn (S (drawn w)) w2))) in
                  (Ok tt, if display then log_call (Display (assetname a)) w3 else w3)
              end
          end
    end.
Proof.
  destruct w as [i o f b d e n ft cs]. unfold download, say. exec_py.
  destruct i as [|A rest]; [reflexivity|].
  destruct (ft (length cs)); [reflexivity|].
  cbn [query_one key_of].
  destruct (to_int d A) as [k|]; [|reflexivity]. cbn [mbind option_bind].
  destruct (tbl_assets d !! k) as [a|]; [|reflexivity].
  cbn [lookup list_lookup].
  destruct (b !! bucketkey a) as [c|]; [|reflexivity].
  rewrite lookup_insert_eq. by destruct display.
Qed.


(** ** End of input inside a handler *)

(** X4. When the input ends while a handler waits for a line, the handler
    dies of [EOFError] having changed nothing: no external call was made,
    and database, bucket and local files are as before.  This holds for
    download at its only read, for upload at either of its two reads, and
    for adduser at any of its three reads, so that no user row is inserted
    from a partial entry. *)
Theorem end_of_input_changes_nothing (w : world) :
  (forall display,
     stdin w = [] ->
     exists w', download display w = (Raised EOFError, w') /\
                calls w' = calls w /\ same_stores w w') /\
  (stdin w = [] \/ (exists s, stdin w = [s] /\ is_Some (fs w !! s)) ->
   exists w', upload w = (Raised EOFError, w') /\
              calls w' = calls w /\ same_stores w w') /\
  ((length (stdin w) < 3)%nat ->
   exists w', adduser w = (Raised EOFError, w') /\
              calls w' = calls w /\ same_stores w w' /\ drawn w' = drawn w).
Proof.
  split; [|split].
  - intros display Hin. rewrite download_run, Hin.
    eexists. split; [reflexivity|]. by split.
  - destruct w as [i o f b d e n ft cs]. unfold same_stores. cbn.
    intros [->|(s & -> & c & Hc)]; unfold upload; exec_py.
    + eexists. split; [reflexivity|]. by repeat split.
    + rewrite Hc. cbn. eexists. split; [reflexivity|]. by repeat split.
  - destruct w as [i o f b d e n ft cs]. unfold same_stores. cbn. intros Hlen.
    unfold adduser. exec_py.
    destruct i as [|l1 [|l2 [|l3 rest]]]; cbn in Hlen; try lia;
      (eexists; split; [reflexivity|]; by repeat split).
Qed.

Lemma end_of_input_changes_nothing_witness :
  (exists w', download true (sample_world [] no_fault) = (Raised EOFError, w') /\ calls w' = []) /\
  (exists w', upload (sample_world ["pic.jpg"] no_fault) = (Raised EOFError, w') /\ calls w' = []) /\
  (exists w', adduser (sample_world ["a@b.com"; "Doe"] no_fault) = (Raised EOFError, w') /\
              db w' = sample_db).
Proof.
  split; [|split].
  - destruct (end_of_input_changes_nothing (sample_world [] no_fault)) as (H & _).
    destruct (H true eq_refl) as (w' & Hd & Hc & _). by exists w'.
  - destruct (end_of_input_changes_nothing (sample_world ["pic.jpg"] no_fault)) as (_ & H & _).
    destruct H as (w' & Hu & Hc & _).
    + right. exists "pic.jpg". split; [reflexivity|]. by exists "PIC".
    + by exists w'.
  - destruct (end_of_input_changes_nothing (sample_world ["a@b.com"; "Doe"] no_fault))
      as (_ & _ & H).
    destruct H as (w' & Ha & _ & (Hdb & _) & _); [cbn; lia|]. by exists w'.
Defined.

(** ** Upload *)

(** Every way the upload handler can run. *)
Lemma upload_run (w : world) :
  upload w =
    match stdin w with
    | [] => (Raised EOFError, say [VStr "Enter local file name>"] w)
    | s :: lines =>
        let w1 := set_stdin lines (say [VStr "Enter local file name>"] w) in
        match fs w !! s with
        | None =>
            (Aborted, say [VStr "Local file '"; VStr s; VStr "' does not exist..."] w1)
        | Some c =>
            let w2 := say [VStr "Enter user id>"] w1 in
            match lines with
            | [] => (Raised EOFError, w2)
            | id :: rest =>
                let w3 := log_call (DbOneRow SQL_user_by_id [VStr id]) (set_stdin rest w2) in
                let no_user := (Aborted, say [VStr "No such user..."] w3) in
                if db_fault w (length (calls w)) then no_user
                else
                  match to_int (db w) id with
                  | None => no_user
                  | Some k =>
                      match tbl_users (db w) !! k with
                      | None => no_user
                      | Some u =>
                          let key := upload_key w u in
                          let w4 :=
                            log_call (DbAction SQL_insert_asset [VStr id; VStr s; VStr key])
                              (say [VStr "Uploaded and stored in S3 as '"; VStr key; VStr "'"]
                                 (log_call (S3Upload s key)
                                    (set_bucket (<[key := c]> (bucket w))
                                       (set_drawn (S (drawn w)) w3)))) in
                          let w5 :=
                            if db_fault w (S (S (length (calls w)))) then w4
                            else match execute (db w) SQL_insert_asset
                                         [VStr id; VStr s; VStr key] with
                                 | Some (d, _) => set_db d w4
                                 | None => w4
                                 end in
                          let w6 := log_call (DbOneRow SQL_last_insert_id []) w5 in
                          if db_fault w (S (S (S (length (calls w)))))
                          then (Raised TypeError, w6)
                          else (Ok tt, say [VStr "Recorded in RDS under asset id";
                                            VInt (last_insert_id (db w5))] w6)
                      end
                  end
            end
        end
    end.
Proof.
  destruct w as [i o f b d e n ft cs]. unfold upload, say, upload_key. exec_py.
  destruct i as [|s lines]; [reflexivity|].
  destruct (f !! s) as [c|] eqn:Hfs; simpl; [|reflexivity].
  destruct lines as [|id rest]; [reflexivity|].
  destruct (ft (length cs)); [reflexivity|].
  simpl.
  destruct (to_int d id) as [k|]; [|reflexivity].
  destruct (tbl_users d !! k) as [u|]; [|reflexivity].
  simpl. rewrite Hfs. simpl. rewrite ?length_snoc.
  destruct (ft (S (S (length cs)))); simpl; rewrite ?length_snoc.
  - by destruct (ft (S (S (S (length cs))))).
  - destruct (execute d _ _) as [[d' z]|]; simpl; rewrite ?length_snoc;
      by destruct (ft (S (S (S (length cs))))).
Qed.

Lemma upload_ok (w : world) (s id : string) (rest : list string)
    (k : Z) (u : user) (c : string) :
  stdin w = s :: id :: rest ->
  can_upload w s id k u c ->
  upload w = (Ok tt, uploaded w s id rest k u c).
Proof.
  intros Hin (Hfs & Hk & Hu & Hfree & Hf0 & Hf2 & Hf3).
  rewrite upload_run, Hin, Hfs, Hf0, Hk, Hu. cbv zeta. rewrite Hf2, Hf3.
  unfold execute. cbn [key_of]. rewrite Hk, Hfree.
  destruct w as [i o f b d e n ft cs].
  unfold uploaded, with_asset, upload_calls, say, upload_key.
  exec_py. simpl. by rewrite <- !app_assoc.
Qed.

(** X5. In every run, upload leaves the local files as they are, and it
    changes the bucket by at most one object: either the bucket is as
    before, or the contents of the named local file were put under one
    key, every other key keeping its object. *)
Theorem upload_writes_one_object_at_most (w : world) :
  fs (upload w).2 = fs w /\
  (bucket (upload w).2 = bucket w \/
   exists s lines c key,
     stdin w = s :: lines /\ fs w !! s = Some c /\
     bucket (upload w).2 = <[key := c]> (bucket w)).
Proof.
  rewrite upload_run.
  destruct (stdin w) as [|s lines] eqn:Hin; [by split; [|left]|].
  destruct (fs w !! s) as [c|] eqn:Hfs; [|by split; [|left]].
  destruct lines as [|id rest]; [by split; [|left]|].
  destruct (db_fault w (length (calls w))); [by split; [|left]|].
  destruct (to_int (db w) id) as [k|]; [|by split; [|left]].
  destruct (tbl_users (db w) !! k) as [u|]; [|by split; [|left]].
  cbv zeta.
  destruct (db_fault w (S (S (length (calls w)))));
    [|destruct (execute (db w) SQL_insert_asset _) as [[d' z]|]];
    destruct (db_fault w (S (S (S (length (calls w)))))); cbn;
    (split; [reflexivity|]); right;
    by exists s, (id :: rest), c, (upload_key w u).
Qed.

(** X6. When the user's row was found and the file stored, but the insert
    statement then fails, the object stays in the bucket under the
    generated key while the assets table is as before: the handler makes no
    further storage call that would take the object back. *)
Theorem failed_insert_leaves_object (w : world) (s id : string) (rest : list string)
    (k : Z) (u : user) (c : string) :
  stdin w = s :: id :: rest ->
  fs w !! s = Some c ->
  db_fault w (length (calls w)) = false ->
  to_int (db w) id = Some k ->
  tbl_users (db w) !! k = Some u ->
  insert_fails w (S (S (length (calls w)))) SQL_insert_asset
               [VStr id; VStr s; VStr (upload_key w u)] ->
  bucket (upload w).2 !! upload_key w u = Some c /\
  tbl_assets (db (upload w).2) = tbl_assets (db w) /\
  calls (upload w).2 = calls w ++ upload_calls s id (upload_key w u).
Proof.
  intros Hin Hfs Hft Hk Hu Hfail.
  destruct (upload_with_user w s id rest k u c Hin Hfs Hft Hk Hu)
    as (o & w' & Hup & Hcalls & Hb & _ & _ & Hins & _).
  rewrite Hup. cbn [snd]. split; [|split; [|exact Hcalls]].
  - rewrite Hb. apply lookup_insert_eq.
  - destruct Hins as [[_ ->]|[Hnf Hex]]; [reflexivity|].
    destruct Hfail as [Hf|Hnone]; congruence.
Qed.

Lemma failed_insert_leaves_object_witness :
  bucket (upload (sample_world ["pic.jpg"; "80001"] (fault_at 2))).2
    !! "folder-1/00000000-0000-4000-8000-000000000000.jpg" = Some "PIC" /\
  tbl_assets (db (upload (sample_world ["pic.jpg"; "80001"] (fault_at 2))).2) =
    tbl_assets sample_db.
Proof.
  destruct (failed_insert_leaves_object (sample_world ["pic.jpg"; "80001"] (fault_at 2))
              "pic.jpg" "80001" [] 80001 (mkUser "a@b.com" "Doe" "Jane" "folder-1") "PIC"
              eq_refl eq_refl eq_refl eq_refl eq_refl)
    as (Hb & Ht & _); [by left|].
  split; [exact Hb | exact Ht].
Defined.

(** ** Upload composed with itself and with download *)



(** X8. Two uploads in a row that both go through insert two rows under
    consecutive, hence distinct, asset ids, also when both name the same
    file and the same user; the second key is built from the next draw of
    the random source, and the rows that were in the table stay. *)
Theorem two_uploads_two_rows (w : world) (s1 id1 s2 id2 : string) (rest : list string)
    (k1 k2 : Z) (u1 u2 : user) (c1 c2 : string) :
  stdin w = s1 :: id1 :: s2 :: id2 :: rest ->
  can_upload w s1 id1 k1 u1 c1 ->
  can_upload (uploaded w s1 id1 (s2 :: id2 :: rest) k1 u1 c1) s2 id2 k2 u2 c2 ->
  exists w1 w2,
    upload w = (Ok tt, w1) /\
    upload w1 = (Ok tt, w2) /\
    tbl_assets (db w2) !! assets_auto (db w) =
      Some (mkAsset k1 s1 (upload_key w u1)) /\
    tbl_assets (db w2) !! (assets_auto (db w) + 1) =
      Some (mkAsset k2 s2
              (bucketfolder u2 +:+ "/" +:+
               str_uuid (uuid4_of (entropy w (S (drawn w)))) +:+ ".jpg")) /\
    (forall n a, tbl_assets (db w) !! n = Some a -> tbl_assets (db w2) !! n = Some a).
Proof.
  intros Hin Hcan1 Hcan2.
  pose proof (upload_ok w s1 id1 (s2 :: id2 :: rest) k1 u1 c1 Hin Hcan1) as Hup1.
  pose proof (upload_ok (uploaded w s1 id1 (s2 :: id2 :: rest) k1 u1 c1)
                s2 id2 rest k2 u2 c2 eq_refl Hcan2) as Hup2.
  destruct Hcan1 as (_ & _ & _ & Hfree1 & _).
  destruct Hcan2 as (_ & _ & _ & Hfree2 & _).
  cbn [db uploaded with_asset tbl_assets assets_auto] in Hfree2.
  do 2 eexists. split; [exact Hup1|]. split; [exact Hup2|].
  cbn [db uploaded with_asset tbl_assets assets_auto].
  split; [|split].
  - rewrite lookup_insert_ne by lia. apply lookup_insert_eq.
  - apply lookup_insert_eq.
  - intros n a Hn.
    rewrite lookup_insert_ne in Hfree2 by lia.
    rewrite lookup_insert_ne by (intros Heq; rewrite Heq in Hfree2; congruence).
    rewrite lookup_insert_ne by (intros Heq; rewrite Heq in Hfree1; congruence).
    exact Hn.
Qed.

Lemma two_uploads_two_rows_witness :
  exists w1 w2,
    upload (sample_world ["pic.jpg"; "80001"; "pic.jpg"; "80001"] no_fault) = (Ok tt, w1) /\
    upload w1 = (Ok tt, w2) /\
    is_Some (tbl_assets (db w2) !! 1003) /\
    is_Some (tbl_assets (db w2) !! 1004).
Proof.
  destruct (two_uploads_two_rows
              (sample_world ["pic.jpg"; "80001"; "pic.jpg"; "80001"] no_fault)
              "pic.jpg" "80001" "pic.jpg" "80001" [] 80001 80001
              (mkUser "a@b.com" "Doe" "Jane" "folder-1")
              (mkUser "a@b.com" "Doe" "Jane" "folder-1") "PIC" "PIC" eq_refl)
    as (w1 & w2 & Hup1 & Hup2 & Ha & Hb & _).
  - repeat split; reflexivity.
  - repeat split; reflexivity.
  - exists w1, w2. split; [exact Hup1|]. split; [exact Hup2|].
    split; eexists; [exact Ha | exact Hb].
Defined.

(** ** Add user *)

Lemma adduser_ok (w : world) (e0 l f : string) (rest : list string) :
  stdin w = e0 :: l :: f :: rest ->
  can_adduser w ->
  adduser w = (Ok tt, user_added w e0 l f rest).
Proof.
  intros Hin (Hfree & Hf0 & Hf1).
  destruct w as [i o fs0 b d e n ft cs].
  cbn [stdin db db_fault calls] in Hin, Hfree, Hf0, Hf1. subst i.
  unfold adduser, user_added, with_user, adduser_calls, new_folder. exec_py.
  rewrite Hf0. unfold execute. rewrite Hfree. rewrite !length_snoc, Hf1.
  simpl. by rewrite <- !app_assoc.
Qed.

(** X9. An adduser that goes through stores one new row, under the next
    user id, with the entered email, last name and first name in that order
    and a folder identifier drawn for it; every row that was in the users
    table stays, the assets table, the bucket and the local files are as
    before (no folder object is created), and the id printed is the new
    row's id. *)
Theorem adduser_stores_entry (w : world) (e0 l f : string) (rest : list string) :
  stdin w = e0 :: l :: f :: rest ->
  can_adduser w ->
  exists w',
    adduser w = (Ok tt, w') /\
    tbl_users (db w') !! users_auto (db w) =
      Some (mkUser e0 l f (str_uuid (uuid4_of (entropy w (drawn w))))) /\
    (forall k u, tbl_users (db w) !! k = Some u -> tbl_users (db w') !! k = Some u) /\
    tbl_assets (db w') = tbl_assets (db w) /\
    bucket w' = bucket w /\ fs w' = fs w /\ stdin w' = rest /\
    last (stdout w') =
      Some ("Recorded in RDS under asset id " +:+ pretty (users_auto (db w))).
Proof.
  intros Hin Hcan. exists (user_added w e0 l f rest).
  split; [by apply adduser_ok|].
  destruct Hcan as (Hfree & _).
  cbn [db user_added with_user tbl_users tbl_assets bucket fs stdin stdout].
  split; [apply lookup_insert_eq|]. split.
  { intros k u Hk. rewrite lookup_insert_ne; [exact Hk|]. intros Heq.
    rewrite Heq in Hfree. congruence. }
  repeat split; try reflexivity. by rewrite last_app.
Qed.

Lemma adduser_stores_entry_witness :
  exists w',
    adduser (sample_world ["j@d.org"; "Doe"; "John"] no_fault) = (Ok tt, w') /\
    tbl_users (db w') !! 80003 =
      Some (mkUser "j@d.org" "Doe" "John" "00000000-0000-4000-8000-000000000000") /\
    bucket w' = bucket (sample_world ["j@d.org"; "Doe"; "John"] no_fault).
Proof.
  destruct (adduser_stores_entry (sample_world ["j@d.org"; "Doe"; "John"] no_fault)
              "j@d.org" "Doe" "John" [] eq_refl)
    as (w' & Hadd & Hrow & _ & _ & Hb & _).
  - repeat split; reflexivity.
  - exists w'. repeat split; assumption.
Defined.

(** Two strictly descending lists with the same rows are the same list. *)
Lemma descending_unique {A} (l1 l2 : list (Z * A)) :
  StronglySorted id_gt l1 -> StronglySorted id_gt l2 -> l1 ≡ₚ l2 -> l1 = l2.
Proof.
  intros H1. revert l2. induction H1 as [|x1 l1 Hs1 IH Hx1]; intros l2 H2 E.
  { symmetry. by apply Permutation_nil. }
  destruct H2 as [|x2 l2 Hs2 Hx2].
  { by apply Permutation_nil_r in E. }
  assert (x1 = x2) as <-.
  { rewrite Forall_forall in Hx1, Hx2.
    assert (Hin2 : x2 ∈ x1 :: l1) by (rewrite E; left).
    assert (Hin1 : x1 ∈ x2 :: l2) by (rewrite <- E; left).
    apply elem_of_cons in Hin1 as [?|Hin1]; [done|].
    apply elem_of_cons in Hin2 as [?|Hin2]; [done|].
    specialize (Hx1 _ Hin2). specialize (Hx2 _ Hin1). unfold id_gt in *. lia. }
  f_equal. apply IH; [done|]. by apply (Permutation_cons_inv (a := x1)).
Qed.

Lemma order_by_desc_insert_max {A} (t : gmap Z A) (k : Z) (x : A) :
  (forall j, is_Some (t !! j) -> j < k) ->
  order_by_desc (<[k := x]> t) = (k, x) :: order_by_desc t.
Proof.
  intros Hmax.
  assert (Hnone : t !! k = None).
  { destruct (t !! k) eqn:E; [|done]. specialize (Hmax k ltac:(by rewrite E)). lia. }
  apply descending_unique.
  - apply order_by_desc_sorted.
  - constructor; [apply order_by_desc_sorted|].
    apply Forall_forall. intros r Hr. apply order_by_desc_lookup in Hr.
    unfold id_gt. simpl. apply Hmax. by rewrite Hr.
  - rewrite !order_by_desc_perm. by apply map_to_list_insert.
Qed.

(** X10. When every user id in the table is below the next auto-assigned
    one, a users listing that follows an adduser that went through prints
    the new user first and then the rows it would have printed before. *)
Theorem new_user_is_listed_first (w : world) (e0 l f : string) (rest : list string) :
  stdin w = e0 :: l :: f :: rest ->
  can_adduser w ->
  (forall k, is_Some (tbl_users (db w) !! k) -> k < users_auto (db w)) ->
  db_fault w (length (calls w) + 2) = false ->
  exists w1 w2,
    adduser w = (Ok tt, w1) /\
    users w1 = (Ok tt, w2) /\
    stdout w2 =
      stdout w1 ++
      user_lines (users_auto (db w),
                  mkUser e0 l f (str_uuid (uuid4_of (entropy w (drawn w))))) ++
      concat (map user_lines (order_by_desc (tbl_users (db w)))).
Proof.
  intros Hin Hcan Hmax Hf2.
  exists (user_added w e0 l f rest). eexists.
  split; [by apply adduser_ok|]. split; [apply users_run|].
  cbn [stdout set_stdout log_call db_fault calls db user_added with_user tbl_users].
  rewrite length_app. cbn [length adduser_calls]. rewrite Hf2.
  rewrite (order_by_desc_insert_max _ _ _ Hmax). reflexivity.
Qed.

Lemma new_user_is_listed_first_witness :
  exists w1 w2 tail,
    adduser (sample_world ["j@d.org"; "Doe"; "John"] no_fault) = (Ok tt, w1) /\
    users w1 = (Ok tt, w2) /\
    stdout w2 = stdout w1 ++ "User id: 80003" :: tail.
Proof.
  destruct (new_user_is_listed_first (sample_world ["j@d.org"; "Doe"; "John"] no_fault)
              "j@d.org" "Doe" "John" [] eq_refl)
    as (w1 & w2 & Hadd & Hus & Hout).
  - repeat split; reflexivity.
  - intros k [u Hk]. cbn in Hk.
    destruct (decide (k = 80001)) as [->|H1]; [reflexivity|].
    destruct (decide (k = 80002)) as [->|H2]; [reflexivity|].
    rewrite lookup_insert_ne in Hk by done.
    rewrite lookup_insert_ne in Hk by done.
    by rewrite lookup_empty in Hk.
  - reflexivity.
  - exists w1, w2. eexists. split; [exact Hadd|]. split; [exact Hus|].
    rewrite Hout. reflexivity.
Defined.

(** X11. The folder identifier generated by adduser is the prefix of the
    storage keys of that user's uploads: an upload under the new user's id,
    right after an adduser that went through, inserts a row owned by the
    new id whose key is the new folder identifier, a slash, the next
    token and ".jpg", and stores the file under that key. *)
Theorem new_user_uploads_into_own_folder (w : world) (e0 l f s id : string)
    (rest : list string) (c : string) :
  stdin w = e0 :: l :: f :: s :: id :: rest ->
  can_adduser w ->
  fs w !! s = Some c ->
  to_int (db w) id = Some (users_auto (db w)) ->
  tbl_assets (db w) !! assets_auto (db w) = None ->
  db_fault w (length (calls w) + 2) = false ->
  db_fault w (length (calls w) + 4) = false ->
  db_fault w (length (calls w) + 5) = false ->
  exists w1 w2 key,
    adduser w = (Ok tt, w1) /\
    upload w1 = (Ok tt, w2) /\
    key = str_uuid (uuid4_of (entropy w (drawn w))) +:+ "/" +:+
          str_uuid (uuid4_of (entropy w (S (drawn w)))) +:+ ".jpg" /\
    tbl_assets (db w2) !! assets_auto (db w) =
      Some (mkAsset (users_auto (db w)) s key) /\
    bucket w2 !! key = Some c.
Proof.
  intros Hin Hcan Hfs Hid Hfree Hf2 Hf4 Hf5.
  pose proof (adduser_ok w e0 l f (s :: id :: rest) Hin Hcan) as Hadd.
  pose proof (upload_ok (user_added w e0 l f (s :: id :: rest)) s id rest
                (users_auto (db w)) (mkUser e0 l f (new_folder w)) c eq_refl) as Hup.
  do 3 eexists. split; [exact Hadd|]. split; [apply Hup|].
  - unfold can_upload.
    cbn [fs db user_added with_user tbl_users tbl_assets assets_auto to_int db_fault calls].
    rewrite !length_app. cbn [length adduser_calls].
    replace (S (S (S (length (calls w) + 2)))) with (length (calls w) + 5)%nat by lia.
    replace (S (S (length (calls w) + 2))) with (length (calls w) + 4)%nat by lia.
    repeat split; try assumption. apply lookup_insert_eq.
  - split; [reflexivity|].
    cbn [db bucket uploaded with_asset tbl_assets user_added with_user assets_auto].
    split; apply lookup_insert_eq.
Qed.

Lemma new_user_uploads_into_own_folder_witness :
  exists w1 w2,
    adduser (sample_world ["j@d.org"; "Doe"; "John"; "pic.jpg"; "80003"] no_fault)
      = (Ok tt, w1) /\
    upload w1 = (Ok tt, w2) /\
    is_Some (tbl_assets (db w2) !! 1003).
Proof.
  destruct (new_user_uploads_into_own_folder
              (sample_world ["j@d.org"; "Doe"; "John"; "pic.jpg"; "80003"] no_fault)
              "j@d.org" "Doe" "John" "pic.jpg" "80003" [] "PIC" eq_refl)
    as (w1 & w2 & key & Hadd & Hup & _ & Hrow & _); try reflexivity.
  - repeat split; reflexivity.
  - exists w1, w2. split; [exact Hadd|]. split; [exact Hup|]. by eexists.
Defined.

(** * Further properties of the processing loop *)


Lemma while_loop_zero (bucketname endpoint : string) (fuel : nat) (w : world) :
  while_loop bucketname endpoint fuel 0 w = (Ok true, w).
Proof. by destruct fuel. Qed.











Lemma steps_terminated (bucketname endpoint : string) (n : nat) (how : exit_reason)
    (w : world) :
  steps bucketname endpoint n (terminated how) w = (terminated how, w).
Proof. induction n as [|n IH]; [reflexivity|]. cbn [steps step]. exact IH. Qed.

(** X15. The processing loop follows the dispatcher's state machine:
    whenever the loop ends (by command 0, by an uncaught exception or by a
    kill), the machine started in [awaiting_command] on the same world
    reaches [terminated] with the matching reason and the same final world
    after finitely many steps, and stays there. *)
Theorem loop_follows_state_machine (bucketname endpoint : string) (fuel : nat)
    (w : world) (o : outcome bool) (w' : world) :
  main bucketname endpoint fuel w = (o, w') ->
  o <> Ok false ->
  exists n, forall m,
    steps bucketname endpoint (n + m) awaiting_command w = (terminated (exit_of o), w').
Proof.
  intros Hm Hfin. destruct (main_steps bucketname endpoint fuel w o w' Hm Hfin) as [n Hn].
  exists n. intros m. rewrite (steps_app _ _ _ _ _ _ _ _ Hn). apply steps_terminated.
Qed.

Lemma loop_follows_state_machine_witness :
  exists w' n, forall m,
    steps "photoapp" "db.example.org" (n + m) awaiting_command
          (sample_world ["0"; "2"] no_fault) = (terminated Done, w').
Proof.
  assert (Hm : exists w', main "photoapp" "db.example.org" 1
                            (sample_world ["0"; "2"] no_fault) = (Ok true, w')).
  { rewrite main_run, prompt_run.
    change (stdin (sample_world ["0"; "2"] no_fault)) with ["0"; "2"].
    cbv beta iota. rewrite (eq_refl : Py.int "0" = Some 0).
    rewrite bind_run, while_loop_zero, closing_prints. eexists. reflexivity. }
  destruct Hm as [w' Hm]. exists w'.
  apply (loop_follows_state_machine "photoapp" "db.example.org" 1
           (sample_world ["0"; "2"] no_fault) (Ok true) w' Hm).
  discriminate.
Defined.

(** * Properties of the start of a session *)

(** X16. When the chosen configuration file does not exist (the entered
    name or, for an empty line, photoapp-config.ini), the start-up prints
    the error that names the file and exits with status 0; the processing
    loop never starts, no further input is read, and the outcome does not
    depend on any library: no configuration is read and no connection is
    attempted. *)
Theorem missing_config_file_exits
    (config_get : string -> string -> string -> option string)
    (has_profile : string -> string -> bool)
    (get_dbConn : string -> Z -> string -> string -> string -> bool)
    (w : world) (s : string) (rest : list string)
    (fuel : nat) :
  stdin w = s :: rest ->
  fs w !! (if String.eqb s "" then "photoapp-config.ini" else s) = None ->
  exists w',
    startup config_get has_profile get_dbConn w = (Exit 0, w') /\
    program config_get has_profile get_dbConn fuel w = (Stopped (Exit 0), w') /\
    stdin w' = rest /\ calls w' = calls w /\ same_stores w w' /\
    stdout w' =
      stdout w ++ welcome ++
      ["**ERROR: config file ' " +:+ (if String.eqb s "" then "photoapp-config.ini" else s)
         +:+ " ' does not exist, exiting"] /\
    (forall config_get' has_profile' get_dbConn',
       startup config_get' has_profile' get_dbConn' w = (Exit 0, w')).
Proof.
  intros Hin Hfs.
  destruct w as [i o f b d e n ft cs]. cbn [stdin fs] in Hin, Hfs. subst i.
  assert (Hs : forall cg hp conn,
            startup cg hp conn (mkWorld (s :: rest) o f b d e n ft cs) =
              (Exit 0,
               mkWorld rest
                 (o ++ welcome ++
                  ["**ERROR: config file ' "
                     +:+ (if String.eqb s "" then "photoapp-config.ini" else s)
                     +:+ " ' does not exist, exiting"]) f b d e n ft cs)).
  { intros cg hp conn. unfold startup, say.
    cbv [set_stdout set_stdin stdin stdout fs bucket db entropy drawn db_fault calls].
    unfold default_config_file. rewrite Hfs. unfold welcome.
    rewrite <- !app_assoc. reflexivity. }
  eexists. split; [exact (Hs _ _ _)|].
  split; [unfold program; rewrite Hs; reflexivity|].
  unfold same_stores. cbn [stdin stdout fs bucket db calls].
  repeat split; try reflexivity. exact Hs.
Qed.

(** X17. With the configuration file in place, the profile found and all
    six options present, the port being an integer: the session starts with
    the bucket name and the endpoint of the configuration when the
    connection is made, and otherwise the start-up prints that it is unable
    to connect and exits with status 0.  Either way nothing but the
    welcome lines was printed before, and bucket, database and local files
    are untouched. *)
Theorem startup_connects_or_exits
    (config_get : string -> string -> string -> option string)
    (has_profile : string -> string -> bool)
    (get_dbConn : string -> Z -> string -> string -> string -> bool)
    (w : world) (s : string) (rest : list string)
    (text bucketname endpoint port username pwd dbname : string) (portnum : Z) :
  stdin w = s :: rest ->
  fs w !! (if String.eqb s "" then "photoapp-config.ini" else s) = Some text ->
  has_profile text "s3readwrite" = true ->
  config_get text "s3" "bucket_name" = Some bucketname ->
  config_get text "rds" "endpoint" = Some endpoint ->
  config_get text "rds" "port_number" = Some port ->
  Py.int port = Some portnum ->
  config_get text "rds" "user_name" = Some username ->
  config_get text "rds" "user_pwd" = Some pwd ->
  config_get text "rds" "db_name" = Some dbname ->
  exists w',
    same_stores w w' /\ calls w' = calls w /\ stdin w' = rest /\
    if get_dbConn endpoint portnum username pwd dbname
    then startup config_get has_profile get_dbConn w = (Ready bucketname endpoint, w') /\
         stdout w' = stdout w ++ welcome
    else startup config_get has_profile get_dbConn w = (Exit 0, w') /\
         stdout w' = stdout w ++ welcome ++
                     ["**ERROR: unable to connect to database, exiting"].
Proof.
  intros Hin Hfs Hp Hb He Hport Hint Hu Hpw Hd.
  destruct w as [i o f b d e n ft cs]. cbn in Hin, Hfs. subst i.
  unfold startup, say, same_stores.
  cbv [set_stdout set_stdin stdin stdout fs bucket db entropy drawn db_fault calls].
  unfold default_config_file, s3_profile. rewrite Hfs, Hp. cbn [negb].
  rewrite Hb, He, Hport, Hint, Hu, Hpw, Hd. unfold welcome.
  destruct (get_dbConn endpoint portnum username pwd dbname);
    eexists; (split; [|split; [|split; [|split]]]); try reflexivity;
    cbn; by rewrite <- ?app_assoc.
Qed.


Lemma missing_config_file_exits_witness :
  exists w',
    startup sample_config (fun _ _ => true) (fun _ _ _ _ _ => true)
            (sample_world [""; "1"] no_fault) = (Exit 0, w') /\
    last (stdout w') =
      Some "**ERROR: config file ' photoapp-config.ini ' does not exist, exiting" /\
    stdin w' = ["1"].
Proof.
  destruct (missing_config_file_exits sample_config (fun _ _ => true)
              (fun _ _ _ _ _ => true) (sample_world [""; "1"] no_fault) "" ["1"] 0
              eq_refl eq_refl)
    as (w' & Hs & _ & Hin & _ & _ & Hout & _).
  exists w'. split; [exact Hs|]. split; [|exact Hin].
  rewrite Hout. reflexivity.
Defined.

Lemma startup_connects_or_exits_witness :
  (exists w',
     startup sample_config (fun _ _ => true) (fun _ _ _ _ _ => true)
             (sample_world ["pic.jpg"; "0"] no_fault) = (Ready "s3.bucket_name" "rds.endpoint", w') /\
     stdin w' = ["0"]) /\
  (exists w',
     startup sample_config (fun _ _ => true) (fun _ _ _ _ _ => false)
             (sample_world ["pic.jpg"; "0"] no_fault) = (Exit 0, w') /\
     last (stdout w') = Some "**ERROR: unable to connect to database, exiting").
Proof.
  split.
  - destruct (startup_connects_or_exits sample_config (fun _ _ => true)
                (fun _ _ _ _ _ => true) (sample_world ["pic.jpg"; "0"] no_fault)
                "pic.jpg" ["0"] "PIC" "s3.bucket_name" "rds.endpoint" "3306"
                "rds.user_name" "rds.user_pwd" "rds.db_name" 3306
                eq_refl eq_refl eq_refl eq_refl eq_refl eq_refl eq_refl eq_refl eq_refl eq_refl)
      as (w' & _ & _ & Hin & Hs & _).
    exists w'. exact (conj Hs Hin).
  - destruct (startup_connects_or_exits sample_config (fun _ _ => true)
                (fun _ _ _ _ _ => false) (sample_world ["pic.jpg"; "0"] no_fault)
                "pic.jpg" ["0"] "PIC" "s3.bucket_name" "rds.endpoint" "3306"
                "rds.user_name" "rds.user_pwd" "rds.db_name" 3306
                eq_refl eq_refl eq_refl eq_refl eq_refl eq_refl eq_refl eq_refl eq_refl eq_refl)
      as (w' & _ & _ & _ & Hs & Hout).
    exists w'. split; [exact Hs|]. rewrite Hout. reflexivity.
Defined.

